(** * Oh My Theme: the configuration store ([oh_my_theme/config.py])

    The module keeps one JSON document on disk, holding a list of custom
    repository URLs and a mapping of named settings.  Every operation is a
    load / mutate / save transaction against that one file.

    The development is organised as follows:
    - [Py]: the fragment of Python's object model the module touches
      (JSON-shaped values, the exceptions that can arise, [in], item
      access, [dict.get], [list.append], [list.remove]);
    - [Fs]: the two paths the module uses ([CONFIG_DIR], [CONFIG_FILE]) as
      an explicit state, with a state-and-exception monad over it;
    - [SampleJson]: one executable JSON printer and reader, and [Samples]:
      file systems and file contents, to run the model on;
    - [ConfigStore]: the functions of [config.py], over an arbitrary
      [json.dump] / [json.load] pair, and their properties;
    - the properties applied to the samples. *)

From Stdlib Require Import String Ascii List ZArith Bool Arith Lia.
Import ListNotations.

Local Open Scope string_scope.
Local Open Scope list_scope.
Local Set Warnings "-register-all".

(* ===================================================================== *)
(** ** Python values and exceptions *)
(* ===================================================================== *)

Module Py.

(** What [json.load] can return and [json.dump] can take: [None], booleans,
    integers, strings, lists, and dictionaries with string keys.  A [dict]
    keeps its insertion order (and [json.dump] writes the keys in that
    order), so it is an association list; [dict_set] below maintains it the
    way item assignment does.  Floats are left out: [Config] declares
    integer settings and string URLs only. *)
Inductive value : Type :=
| VNone
| VBool (b : bool)
| VInt (n : Z)
| VStr (s : string)
| VList (l : list value)
| VDict (d : list (string * value)).

Definition dict := list (string * value).

(** The exception classes that occur in [config.py] and in the calls it
    makes. *)
Inductive exn : Type :=
| OSError
| JSONDecodeError
| UnicodeDecodeError
| TypeError
| AttributeError
| KeyError
| ValueError.

Definition exn_eqb (a b : exn) : bool :=
  match a, b with
  | OSError, OSError
  | JSONDecodeError, JSONDecodeError
  | UnicodeDecodeError, UnicodeDecodeError
  | TypeError, TypeError
  | AttributeError, AttributeError
  | KeyError, KeyError
  | ValueError, ValueError => true
  | _, _ => false
  end.

(** The result of evaluating an expression: a value, or a raised
    exception. *)
Inductive outcome (A : Type) : Type :=
| Ret (a : A)
| Raise (e : exn).
Arguments Ret {A} a.
Arguments Raise {A} e.

Definition obind {A B : Type} (m : outcome A) (k : A -> outcome B) : outcome B :=
  match m with
  | Ret a => k a
  | Raise e => Raise e
  end.

(** *** Dictionaries *)

Fixpoint dict_get (key : string) (d : dict) : option value :=
  match d with
  | [] => None
  | (k, v) :: rest => if String.eqb key k then Some v else dict_get key rest
  end.

Definition dict_has (key : string) (d : dict) : bool :=
  match dict_get key d with
  | Some _ => true
  | None => false
  end.

(** [d[key] = v]: an existing key keeps its position, a new key goes last. *)
Fixpoint dict_set (key : string) (v : value) (d : dict) : dict :=
  match d with
  | [] => [(key, v)]
  | (k, w) :: rest =>
      if String.eqb key k then (k, v) :: rest
      else (k, w) :: dict_set key v rest
  end.

(** *** Strings and lists *)

(** [needle in hay] for two strings: substring test. *)
Fixpoint is_substring (needle hay : string) : bool :=
  if String.prefix needle hay then true
  else match hay with
       | EmptyString => false
       | String _ rest => is_substring needle rest
       end.

(** [s == v] for a string [s] and any value [v]: only an equal string
    compares equal. *)
Definition str_eq_value (s : string) (v : value) : bool :=
  match v with
  | VStr t => String.eqb s t
  | _ => false
  end.

(** [list.remove(s)] on the elements: drops the first element equal to [s];
    [None] when there is none (Python raises [ValueError]). *)
Fixpoint remove_first (s : string) (l : list value) : option (list value) :=
  match l with
  | [] => None
  | x :: rest =>
      if str_eq_value s x then Some rest
      else match remove_first s rest with
           | Some rest' => Some (x :: rest')
           | None => None
           end
  end.

(** Number of elements of [l] equal to the string [s]. *)
Definition occurrences (s : string) (l : list value) : nat :=
  length (filter (str_eq_value s) l).

(** *** Operators and methods *)

(** [key in container] for a string [key]. *)
Definition py_in (key : string) (container : value) : outcome bool :=
  match container with
  | VDict d => Ret (dict_has key d)
  | VList l => Ret (existsb (str_eq_value key) l)
  | VStr s => Ret (is_substring key s)
  | VNone | VBool _ | VInt _ => Raise TypeError
  end.

(** [container[key]] for a string [key]. *)
Definition py_getitem (container : value) (key : string) : outcome value :=
  match container with
  | VDict d =>
      match dict_get key d with
      | Some v => Ret v
      | None => Raise KeyError
      end
  | _ => Raise TypeError
  end.

(** [container[key] = v] for a string [key]; returns the container after
    the assignment. *)
Definition py_setitem (container : value) (key : string) (v : value)
  : outcome value :=
  match container with
  | VDict d => Ret (VDict (dict_set key v d))
  | _ => Raise TypeError
  end.

(** [container.get(key, default)]. *)
Definition py_get (container : value) (key : string) (default : value)
  : outcome value :=
  match container with
  | VDict d =>
      match dict_get key d with
      | Some v => Ret v
      | None => Ret default
      end
  | _ => Raise AttributeError
  end.

(** [container.append(x)]; returns the container after the call. *)
Definition py_append (container : value) (x : value) : outcome value :=
  match container with
  | VList l => Ret (VList (l ++ [x]))
  | _ => Raise AttributeError
  end.

(** [container.remove(s)] for a string [s]; returns the container after the
    call. *)
Definition py_remove (container : value) (s : string) : outcome value :=
  match container with
  | VList l =>
      match remove_first s l with
      | Some l' => Ret (VList l')
      | None => Raise ValueError
      end
  | _ => Raise AttributeError
  end.

End Py.

(* ===================================================================== *)
(** ** The configuration directory and file *)
(* ===================================================================== *)

Module Fs.
Import Py.

(** What sits at [CONFIG_FILE] when [os.path.exists] says it exists: a text
    file with its content, or a node that cannot be opened at all, neither
    for reading nor for writing (a directory of that name, a file the user
    has no rights on).  A file that can be written but not read back is not
    modelled: what a write puts there can be read. *)
Inductive file_node : Type :=
| Unreadable
| Text (content : string).

(** What happens when the file is opened for writing and written: the
    write goes through; or [open] is refused and nothing changes; or [open]
    succeeds (truncating the file) and the write fails after [n] characters
    (device full), leaving that prefix behind. *)
Inductive write_mode : Type :=
| Writable
| Denied
| Truncating (n : nat).

Record filesystem : Type := mkFs {
  dir_present : bool;               (* os.path.exists(CONFIG_DIR) *)
  makedirs_ok : bool;               (* would os.makedirs(CONFIG_DIR) succeed *)
  config_file : option file_node;   (* CONFIG_FILE, None when it does not exist *)
  writes : write_mode
}.

(** Computations that read and change the file system and may raise. *)
Definition M (A : Type) : Type := filesystem -> outcome A * filesystem.

Definition ret {A : Type} (a : A) : M A := fun fs => (Ret a, fs).

Definition raise {A : Type} (e : exn) : M A := fun fs => (Raise e, fs).

Definition bind {A B : Type} (m : M A) (k : A -> M B) : M B :=
  fun fs =>
    match m fs with
    | (Ret a, fs') => k a fs'
    | (Raise e, fs') => (Raise e, fs')
    end.

(** An expression that does not touch the file system. *)
Definition lift {A : Type} (o : outcome A) : M A := fun fs => (o, fs).

(** [try: body  except (classes): handler].  The handler runs in the state
    the body left behind. *)
Definition try_except {A : Type} (body : M A) (classes : list exn) (handler : M A)
  : M A :=
  fun fs =>
    match body fs with
    | (Ret a, fs') => (Ret a, fs')
    | (Raise e, fs') =>
        if existsb (exn_eqb e) classes then handler fs' else (Raise e, fs')
    end.

(** [os.path.exists(CONFIG_DIR)] *)
Definition exists_config_dir : M bool :=
  fun fs => (Ret (dir_present fs), fs).

(** [os.path.exists(CONFIG_FILE)] *)
Definition exists_config_file : M bool :=
  fun fs =>
    (Ret (match config_file fs with Some _ => true | None => false end), fs).

(** [os.makedirs(CONFIG_DIR)] *)
Definition makedirs : M unit :=
  fun fs =>
    if makedirs_ok fs
    then (Ret tt, mkFs true (makedirs_ok fs) (config_file fs) (writes fs))
    else (Raise OSError, fs).

(** [open(CONFIG_FILE, encoding="utf-8")] followed by reading it whole. *)
Definition read_config_file : M string :=
  fun fs =>
    match config_file fs with
    | Some (Text content) => (Ret content, fs)
    | Some Unreadable => (Raise OSError, fs)
    | None => (Raise OSError, fs)
    end.

(** What a call [json.dump(config, f, indent=2)] does on an open file [f]:
    it writes the whole text of [config]; or it writes the beginning of the
    text and raises while it serialises what comes next (a [ValueError] on
    an integer over the digit limit of [str], for instance). *)
Inductive dumped : Type :=
| Dumped (text : string)
| DumpFailed (partial : string) (e : exn).

(** What the call handed to the file. *)
Definition written (d : dumped) : string :=
  match d with
  | Dumped text => text
  | DumpFailed partial _ => partial
  end.

(** [with open(CONFIG_FILE, "w", encoding="utf-8") as f:
         json.dump(config, f, indent=2)],
    where [d] is what the [json.dump] call does.  When [open] is refused
    nothing is serialised.  An exception of [json.dump] leaves the [with]
    block after the file was closed over what had been written; on a full
    device closing the file raises [OSError], which is then the exception
    that leaves the block. *)
Definition write_config_file (d : dumped) : M unit :=
  fun fs =>
    if negb (dir_present fs) then (Raise OSError, fs)
    else match config_file fs with
         | Some Unreadable => (Raise OSError, fs)
         | _ =>
             match writes fs with
             | Writable =>
                 (match d with
                  | Dumped _ => Ret tt
                  | DumpFailed _ e => Raise e
                  end,
                  mkFs (dir_present fs) (makedirs_ok fs)
                       (Some (Text (written d))) (writes fs))
             | Denied => (Raise OSError, fs)
             | Truncating n =>
                 (Raise OSError,
                  mkFs (dir_present fs) (makedirs_ok fs)
                       (Some (Text (String.substring 0 n (written d))))
                       (writes fs))
             end
         end.

End Fs.

Declare Scope cfg_scope.
Delimit Scope cfg_scope with cfg.
Notation "x <- m ;; k" := (Fs.bind m (fun x => k))
  (at level 100, m at next level, right associativity) : cfg_scope.
Notation "m ;;; k" := (Fs.bind m (fun _ => k))
  (at level 100, right associativity) : cfg_scope.
Notation "x <~ m ;; k" := (Py.obind m (fun x => k))
  (at level 100, m at next level, right associativity) : cfg_scope.

(* ===================================================================== *)
(** ** An executable JSON printer and reader *)
(* ===================================================================== *)

(** [config.py] calls [json.dump(config, f, indent=2)] and [json.load(f)];
    the functions of [ConfigStore] take the two as parameters.  This module
    is one instance, so that the model runs on concrete file contents: it
    prints the way [json.dump] does with [indent=2] (a string is read as a
    sequence of code points below 256; what is outside the printable ASCII
    range is written as a [\u00XX] escape), and it reads integers, strings,
    [null], [true], [false], arrays and objects; a key that occurs twice in
    an object keeps its first position and its last value.  Decimal
    fractions, exponents and escapes above [\u00ff] are not read: they are
    reported as [JSONDecodeError].  [dumps] is the text of a value, [dump]
    the call that writes it, which stops at an integer of more than 4300
    digits; the reader has no such limit. *)
Module SampleJson.
Import Py.
Local Open Scope string_scope.
Local Open Scope nat_scope.

Definition double_quote : ascii := ascii_of_nat 34.

Definition hex_digit (n : nat) : ascii :=
  if n <? 10 then ascii_of_nat (48 + n) else ascii_of_nat (87 + n).

Definition escape_char (c : ascii) : string :=
  let n := nat_of_ascii c in
  if Ascii.eqb c double_quote then String "\" (String double_quote EmptyString)
  else if Ascii.eqb c "\" then "\\"
  else if n =? 8 then "\b"
  else if n =? 9 then "\t"
  else if n =? 10 then "\n"
  else if n =? 12 then "\f"
  else if n =? 13 then "\r"
  else if (n <? 32) || (126 <? n)
  then "\u00"
       ++ String (hex_digit (n / 16)) (String (hex_digit (n mod 16)) EmptyString)
  else String c EmptyString.

Fixpoint escape (s : string) : string :=
  match s with
  | EmptyString => EmptyString
  | String c rest => escape_char c ++ escape rest
  end.

Definition quote (s : string) : string :=
  String double_quote (escape s ++ String double_quote EmptyString).

(** The decimal digits of [n >= 0], most significant first, in front of
    [acc]; [fuel] bounds the number of digits. *)
Fixpoint digits_of (fuel : nat) (n : Z) (acc : string) : string :=
  match fuel with
  | O => acc
  | S fuel' =>
      let acc' := String (ascii_of_nat (48 + Z.to_nat (n mod 10))) acc in
      if (n / 10 =? 0)%Z then acc' else digits_of fuel' (n / 10)%Z acc'
  end.

Definition print_int (n : Z) : string :=
  let m := Z.abs n in
  let ds := digits_of (S (Z.to_nat (Z.log2 m))) m EmptyString in
  if (n <? 0)%Z then "-" ++ ds else ds.

Fixpoint spaces (n : nat) : string :=
  match n with
  | O => EmptyString
  | S n' => " " ++ spaces n'
  end.

Definition newline : string := String (ascii_of_nat 10) EmptyString.

Definition newline_indent (level : nat) : string :=
  newline ++ spaces (2 * level).

(** [json.dumps(v, indent=2)], at nesting depth [level]. *)
Fixpoint print (level : nat) (v : value) {struct v} : string :=
  match v with
  | VNone => "null"
  | VBool true => "true"
  | VBool false => "false"
  | VInt n => print_int n
  | VStr s => quote s
  | VList [] => "[]"
  | VList (x :: rest) =>
      "[" ++ newline_indent (S level) ++ print (S level) x
      ++ (fix items (l : list value) : string :=
            match l with
            | [] => EmptyString
            | y :: l' =>
                "," ++ newline_indent (S level) ++ print (S level) y ++ items l'
            end) rest
      ++ newline_indent level ++ "]"
  | VDict [] => "{}"
  | VDict ((k, x) :: rest) =>
      "{" ++ newline_indent (S level) ++ quote k ++ ": " ++ print (S level) x
      ++ (fix members (d : list (string * value)) : string :=
            match d with
            | [] => EmptyString
            | (k', y) :: d' =>
                "," ++ newline_indent (S level) ++ quote k' ++ ": "
                ++ print (S level) y ++ members d'
            end) rest
      ++ newline_indent level ++ "}"
  end.

Definition dumps (v : value) : string := print 0 v.

(** [10 ^ 4300], the smallest integer with 4301 decimal digits, as a
    numeral. *)
Definition digit_limit : Z := Eval vm_compute in (10 ^ 4300)%Z.

(** [str] refuses an integer of more than 4300 decimal digits
    ([sys.int_max_str_digits]) with [ValueError]. *)
Definition int_fits (n : Z) : bool := (Z.abs n <? digit_limit)%Z.

(** [json.dump] hands the text to the file piece by piece.  [emit] adds to
    [out] the pieces for [v] and tells whether it got to the end of [v]:
    it stops at the first integer that [str] refuses.  [pending] is the
    opening bracket or the separator of the enclosing list: it is handed
    over together with a scalar element, so that it is not written when
    that element is an integer that [str] refuses; a key of an object
    and its colon are written before the value is looked at. *)
Fixpoint emit (level : nat) (pending : string) (v : value) (out : string)
  {struct v} : string * bool :=
  match v with
  | VNone => (out ++ pending ++ "null", true)
  | VBool true => (out ++ pending ++ "true", true)
  | VBool false => (out ++ pending ++ "false", true)
  | VInt n =>
      if int_fits n then (out ++ pending ++ print_int n, true) else (out, false)
  | VStr s => (out ++ pending ++ quote s, true)
  | VList [] => (out ++ pending ++ "[]", true)
  | VList (x :: rest) =>
      let (out1, ok1) :=
        emit (S level) ("[" ++ newline_indent (S level)) x (out ++ pending) in
      if ok1 then
        let (out2, ok2) :=
          (fix items (l : list value) (o : string) : string * bool :=
             match l with
             | [] => (o, true)
             | y :: l' =>
                 let (o1, ok) :=
                   emit (S level) ("," ++ newline_indent (S level)) y o in
                 if ok then items l' o1 else (o1, false)
             end) rest out1 in
        if ok2 then (out2 ++ newline_indent level ++ "]", true)
        else (out2, false)
      else (out1, false)
  | VDict [] => (out ++ pending ++ "{}", true)
  | VDict ((k, x) :: rest) =>
      let (out1, ok1) :=
        emit (S level) EmptyString x
             (out ++ pending ++ "{" ++ newline_indent (S level)
              ++ quote k ++ ": ") in
      if ok1 then
        let (out2, ok2) :=
          (fix members (d : list (string * value)) (o : string)
             : string * bool :=
             match d with
             | [] => (o, true)
             | (k', y) :: d' =>
                 let (o1, ok) :=
                   emit (S level) EmptyString y
                        (o ++ "," ++ newline_indent (S level)
                         ++ quote k' ++ ": ") in
                 if ok then members d' o1 else (o1, false)
             end) rest out1 in
        if ok2 then (out2 ++ newline_indent level ++ "}", true)
        else (out2, false)
      else (out1, false)
  end.

(** [json.dump(v, f, indent=2)]. *)
Definition dump (v : value) : Fs.dumped :=
  let (out, ok) := emit 0 EmptyString v EmptyString in
  if ok then Fs.Dumped out else Fs.DumpFailed out ValueError.

(** *** Reading *)

Definition is_ws (c : ascii) : bool :=
  let n := nat_of_ascii c in
  (n =? 32) || (n =? 9) || (n =? 10) || (n =? 13).

Fixpoint skip_ws (s : string) : string :=
  match s with
  | String c rest => if is_ws c then skip_ws rest else s
  | EmptyString => s
  end.

Definition digit_value (c : ascii) : option nat :=
  let n := nat_of_ascii c in
  if (48 <=? n) && (n <=? 57) then Some (n - 48) else None.

Definition hex_value (c : ascii) : option nat :=
  let n := nat_of_ascii c in
  if (48 <=? n) && (n <=? 57) then Some (n - 48)
  else if (97 <=? n) && (n <=? 102) then Some (n - 87)
  else if (65 <=? n) && (n <=? 70) then Some (n - 55)
  else None.

Fixpoint read_digits (acc : Z) (s : string) : Z * string :=
  match s with
  | String c rest =>
      match digit_value c with
      | Some d => read_digits (10 * acc + Z.of_nat d)%Z rest
      | None => (acc, s)
      end
  | EmptyString => (acc, s)
  end.

Definition starts_fraction (s : string) : bool :=
  match s with
  | String c _ => Ascii.eqb c "." || Ascii.eqb c "e" || Ascii.eqb c "E"
  | EmptyString => false
  end.

(** An integer literal without its sign: [0], or digits not starting
    with [0]. *)
Definition read_natural (s : string) : option (Z * string) :=
  match s with
  | String c rest =>
      match digit_value c with
      | Some O => if starts_fraction rest then None else Some (0%Z, rest)
      | Some d =>
          let (n, rest') := read_digits (Z.of_nat d) rest in
          if starts_fraction rest' then None else Some (n, rest')
      | None => None
      end
  | EmptyString => None
  end.

(** The characters of a string literal after its opening quote. *)
Fixpoint read_string (s : string) : option (string * string) :=
  match s with
  | EmptyString => None
  | String c rest =>
      if Ascii.eqb c double_quote then Some (EmptyString, rest)
      else if Ascii.eqb c "\" then
        match rest with
        | String e rest' =>
            let plain (x : ascii) :=
              match read_string rest' with
              | Some (t, r) => Some (String x t, r)
              | None => None
              end in
            if Ascii.eqb e double_quote then plain double_quote
            else if Ascii.eqb e "\" then plain "\"%char
            else if Ascii.eqb e "/" then plain "/"%char
            else if Ascii.eqb e "b" then plain (ascii_of_nat 8)
            else if Ascii.eqb e "f" then plain (ascii_of_nat 12)
            else if Ascii.eqb e "n" then plain (ascii_of_nat 10)
            else if Ascii.eqb e "r" then plain (ascii_of_nat 13)
            else if Ascii.eqb e "t" then plain (ascii_of_nat 9)
            else if Ascii.eqb e "u" then
              match rest' with
              | String a (String b (String h (String l rest''))) =>
                  match hex_value a, hex_value b, hex_value h, hex_value l with
                  | Some O, Some O, Some hi, Some lo =>
                      match read_string rest'' with
                      | Some (t, r) =>
                          Some (String (ascii_of_nat (16 * hi + lo)) t, r)
                      | None => None
                      end
                  | _, _, _, _ => None
                  end
              | _ => None
              end
            else None
        | EmptyString => None
        end
      else if nat_of_ascii c <? 32 then None
      else match read_string rest with
           | Some (t, r) => Some (String c t, r)
           | None => None
           end
  end.

Definition expect (word : string) (v : value) (s : string)
  : option (value * string) :=
  if String.prefix word s
  then Some (v, String.substring (String.length word)
                                 (String.length s - String.length word) s)
  else None.

Fixpoint read_value (fuel : nat) (s : string) : option (value * string) :=
  match fuel with
  | O => None
  | S fuel' =>
      match skip_ws s with
      | EmptyString => None
      | String c rest =>
          if Ascii.eqb c "n" then expect "null" VNone (String c rest)
          else if Ascii.eqb c "t" then expect "true" (VBool true) (String c rest)
          else if Ascii.eqb c "f" then expect "false" (VBool false) (String c rest)
          else if Ascii.eqb c double_quote then
            match read_string rest with
            | Some (t, r) => Some (VStr t, r)
            | None => None
            end
          else if Ascii.eqb c "-" then
            match read_natural rest with
            | Some (n, r) => Some (VInt (- n), r)
            | None => None
            end
          else if Ascii.eqb c "[" then
            match skip_ws rest with
            | String "]" r => Some (VList [], r)
            | _ =>
                match read_elements fuel' rest with
                | Some (l, r) => Some (VList l, r)
                | None => None
                end
            end
          else if Ascii.eqb c "{" then
            match skip_ws rest with
            | String "}" r => Some (VDict [], r)
            | _ =>
                match read_members fuel' rest with
                | Some (d, r) =>
                    Some (VDict (fold_left (fun acc kv => dict_set (fst kv) (snd kv) acc)
                                           d []), r)
                | None => None
                end
            end
          else
            match read_natural (String c rest) with
            | Some (n, r) => Some (VInt n, r)
            | None => None
            end
      end
  end

with read_elements (fuel : nat) (s : string) : option (list value * string) :=
  match fuel with
  | O => None
  | S fuel' =>
      match read_value fuel' s with
      | Some (v, rest) =>
          match skip_ws rest with
          | String "," r =>
              match read_elements fuel' r with
              | Some (l, r') => Some (v :: l, r')
              | None => None
              end
          | String "]" r => Some ([v], r)
          | _ => None
          end
      | None => None
      end
  end

with read_members (fuel : nat) (s : string)
  : option (list (string * value) * string) :=
  match fuel with
  | O => None
  | S fuel' =>
      match skip_ws s with
      | String c rest =>
          if Ascii.eqb c double_quote then
            match read_string rest with
            | Some (k, rest1) =>
                match skip_ws rest1 with
                | String ":" rest2 =>
                    match read_value fuel' rest2 with
                    | Some (v, rest3) =>
                        match skip_ws rest3 with
                        | String "," r =>
                            match read_members fuel' r with
                            | Some (d, r') => Some ((k, v) :: d, r')
                            | None => None
                            end
                        | String "}" r => Some ([(k, v)], r)
                        | _ => None
                        end
                    | None => None
                    end
                | _ => None
                end
            | None => None
            end
          else None
      | EmptyString => None
      end
  end.

(** [json.loads(s)]: one value, then only white space. *)
Definition loads (s : string) : outcome value :=
  match read_value (2 * String.length s + 2) s with
  | Some (v, rest) =>
      match skip_ws rest with
      | EmptyString => Ret v
      | _ => Raise JSONDecodeError
      end
  | None => Raise JSONDecodeError
  end.

End SampleJson.

(** A reader for files opened with [encoding="utf-8"]: bytes that are not
    well-formed UTF-8 (a stray continuation byte, a truncated or overlong
    sequence, a surrogate, a byte above [0xF4]) are reported as
    [UnicodeDecodeError] before anything is parsed; a well-formed text goes
    to [SampleJson.loads]. *)
Module SampleUtf8.
Import Py.
Local Open Scope nat_scope.

Definition between (lo hi : nat) (c : ascii) : bool :=
  (lo <=? nat_of_ascii c) && (nat_of_ascii c <=? hi).

Definition continuation (c : ascii) : bool := between 128 191 c.

(** The range of the second byte after the lead byte [lead] of a sequence
    of three or four bytes. *)
Definition second_byte (lead : nat) (c : ascii) : bool :=
  if lead =? 224 then between 160 191 c
  else if lead =? 237 then between 128 159 c
  else if lead =? 240 then between 144 191 c
  else if lead =? 244 then between 128 143 c
  else continuation c.

Fixpoint well_formed (s : string) : bool :=
  match s with
  | EmptyString => true
  | String a rest =>
      let n := nat_of_ascii a in
      if n <? 128 then well_formed rest
      else if (194 <=? n) && (n <=? 223) then
        match rest with
        | String b rest1 => continuation b && well_formed rest1
        | _ => false
        end
      else if (224 <=? n) && (n <=? 239) then
        match rest with
        | String b (String c rest2) =>
            second_byte n b && continuation c && well_formed rest2
        | _ => false
        end
      else if (240 <=? n) && (n <=? 244) then
        match rest with
        | String b (String c (String d rest3)) =>
            second_byte n b && continuation c && continuation d
            && well_formed rest3
        | _ => false
        end
      else false
  end.

Definition loads (s : string) : outcome value :=
  if well_formed s then SampleJson.loads s else Raise UnicodeDecodeError.

End SampleUtf8.

(** File systems and file contents to run the model on. *)
Module Samples.
Import Py Fs.

(** A text in which ['] stands for the double quote of JSON. *)
Fixpoint json (s : string) : string :=
  match s with
  | EmptyString => EmptyString
  | String c rest =>
      String (if Ascii.eqb c "'" then SampleJson.double_quote else c) (json rest)
  end.

(** Nothing there yet: no directory, no file; everything can be created. *)
Definition fresh : filesystem := mkFs false true None Writable.

(** The directory and a writable file with the given content. *)
Definition holding (text : string) : filesystem :=
  mkFs true true (Some (Text text)) Writable.

(** No directory, and it cannot be created. *)
Definition no_directory : filesystem := mkFs false false None Writable.

(** The directory is there, the file is not, and it cannot be created. *)
Definition read_only : filesystem := mkFs true true None Denied.

(** A stored [{}] on a device with no room left: opening the file for
    writing empties it, and nothing more can be written. *)
Definition full_device : filesystem :=
  mkFs true true (Some (Text "{}")) (Truncating 0).

(** Something is at the path of the file, but it cannot be opened. *)
Definition unreadable : filesystem := mkFs true true (Some Unreadable) Writable.

(** A stored list in which one URL occurs twice (the file was edited by
    hand). *)
Definition duplicated : filesystem :=
  holding (json "{'custom_repositories': ['u', 'u'], 'settings': {}}").

(** A stored document with an unknown key and without the repository
    list. *)
Definition themed : filesystem :=
  holding (json "{'theme': 'dark', 'settings': {'x': 1}}").

(** Three stored repositories, the first one twice. *)
Definition three_repositories : filesystem :=
  holding (json "{'custom_repositories': ['a', 'b', 'a'], 'settings': {}}").

Definition example_url : string := "https://example.com/repo".

(** The smallest integer with 4301 decimal digits, [10 ^ 4300], as a
    numeral. *)
Definition oversized : Z := Eval vm_compute in (10 ^ 4300)%Z.

(** The default configuration with one more setting, of 4301 digits. *)
Definition oversized_config : dict :=
  [("custom_repositories", VList []);
   ("settings", VDict [("cache_expiry", VInt 300); ("max_cache_size", VInt 50);
                       ("x", VInt oversized)])].

(** A configuration with both known keys and one more. *)
Definition example_config : dict :=
  [("custom_repositories", VList [VStr example_url]);
   ("settings", VDict [("cache_expiry", VInt 300); ("max_cache_size", VInt 50)]);
   ("theme", VStr "dark")].

(** The JSON string ["cafe"] with its last letter accented, saved as
    Latin-1: the byte [0xE9] followed by a quote is not UTF-8. *)
Definition latin1 : filesystem :=
  holding (json "'caf" ++ String (ascii_of_nat 233) (json "'")).

(** Valid JSON for [null]. *)
Definition null_document : filesystem := holding "null".

(** A stored list that happens to hold both key names. *)
Definition both_names : filesystem :=
  holding (json "['settings', 'custom_repositories']").

(** The repositories were stored as one string. *)
Definition repositories_string : filesystem :=
  holding (json "{'custom_repositories': 'abc', 'settings': {}}").

(** The settings were stored as [null]. *)
Definition settings_null : filesystem :=
  holding (json "{'custom_repositories': [], 'settings': null}").

(** One stored repository and one stored setting, in a file that cannot be
    opened for writing. *)
Definition write_protected : filesystem :=
  mkFs true true
       (Some (Text (json "{'custom_repositories': ['a'], 'settings': {'x': 1}}")))
       Denied.

End Samples.

(* ===================================================================== *)
(** ** [config.py] *)
(* ===================================================================== *)

Section ConfigStore.
Import Py Fs.
Local Open Scope cfg_scope.

(** [json_dump v]: what [json.dump(v, f, indent=2)] does on [f]: the text
    it writes, or the part it writes before it raises. *)
Variable json_dump : value -> dumped.

(** [json_load text]: [json.load(f)] on a file opened with
    [encoding="utf-8"] that holds [text]; it raises [JSONDecodeError] on
    malformed JSON and [UnicodeDecodeError] on bytes that are not UTF-8. *)
Variable json_load : string -> outcome value.

(** The items of [default_config], in the order of the literal. *)
Definition default_items : dict :=
  [("custom_repositories", VList []);
   ("settings", VDict [("cache_expiry", VInt 300); ("max_cache_size", VInt 50)])].

Definition default_config : value := VDict default_items.

Definition ensure_config_dir : M unit :=
  present <- exists_config_dir ;;
  if negb present then makedirs else ret tt.

(** The loop of [load_config]:
    [for key, value in default_config.items():
         if key not in config: config[key] = value] *)
Fixpoint merge_defaults (items : dict) (config : value) : outcome value :=
  match items with
  | [] => Ret config
  | (key, v) :: rest =>
      present <~ py_in key config ;;
      config' <~ (if negb present then py_setitem config key v else Ret config) ;;
      merge_defaults rest config'
  end.

Definition load_config : M value :=
  present <- exists_config_file ;;
  if negb present then ret default_config
  else
    try_except
      (text <- read_config_file ;;
       config <- lift (json_load text) ;;
       lift (merge_defaults default_items config))
      [OSError; JSONDecodeError]
      (ret default_config).

Definition save_config (config : value) : M bool :=
  ensure_config_dir ;;;
  try_except
    (write_config_file (json_dump config) ;;; ret true)
    [OSError]
    (ret false).

(** [config["custom_repositories"].append(repo_url)] changes the list that
    [config] holds: the third line puts the changed list back under its
    key, which keeps its position. *)
Definition add_custom_repository (repo_url : string) : M bool :=
  config <- load_config ;;
  repos <- lift (py_getitem config "custom_repositories") ;;
  present <- lift (py_in repo_url repos) ;;
  if negb present then
    repos <- lift (py_getitem config "custom_repositories") ;;
    repos' <- lift (py_append repos (VStr repo_url)) ;;
    config' <- lift (py_setitem config "custom_repositories" repos') ;;
    save_config config'
  else ret false.

Definition remove_custom_repository (repo_url : string) : M bool :=
  config <- load_config ;;
  repos <- lift (py_getitem config "custom_repositories") ;;
  present <- lift (py_in repo_url repos) ;;
  if present then
    repos <- lift (py_getitem config "custom_repositories") ;;
    repos' <- lift (py_remove repos repo_url) ;;
    config' <- lift (py_setitem config "custom_repositories" repos') ;;
    save_config config'
  else ret false.

Definition get_custom_repositories : M value :=
  config <- load_config ;;
  lift (py_get config "custom_repositories" (VList [])).

(** [default] is [int | None]. *)
Definition of_default (default : option Z) : value :=
  match default with
  | Some n => VInt n
  | None => VNone
  end.

Definition get_setting (key : string) (default : option Z) : M value :=
  config <- load_config ;;
  settings <- lift (py_get config "settings" (VDict [])) ;;
  lift (py_get settings key (of_default default)).

(** [config["settings"][key] = value] changes the mapping that [config]
    holds; as in [add_custom_repository] the changed mapping is put back
    under its key. *)
Definition set_setting (key : string) (value : Z) : M bool :=
  config <- load_config ;;
  present <- lift (py_in "settings" config) ;;
  config <- lift (if negb present then py_setitem config "settings" (VDict [])
                  else Ret config) ;;
  settings <- lift (py_getitem config "settings") ;;
  settings' <- lift (py_setitem settings key (VInt value)) ;;
  config' <- lift (py_setitem config "settings" settings') ;;
  save_config config'.

(** *** Notions used in the statements *)

(** The JSON library reads back what it printed for [v]: a text that
    [json.dump] wrote for [v] without raising is read as [v]. *)
Definition round_trips (v : value) : Prop :=
  forall text, json_dump v = Dumped text -> json_load text = Ret v.

(** The state in which [save_config] opens the file: the directory is
    there. *)
Definition with_config_dir (fs : filesystem) : filesystem :=
  mkFs true (makedirs_ok fs) (config_file fs) (writes fs).

(** The default items whose key [d] lacks: what the merge adds to [d]. *)
Definition missing_defaults (d : dict) : dict :=
  filter (fun kv => negb (dict_has (fst kv) d)) default_items.

(** The configuration [set_setting] hands to [save_config]. *)
Definition with_setting (key : string) (value : Z) (config : Py.value)
  : outcome Py.value :=
  present <~ py_in "settings" config ;;
  config <~ (if negb present then py_setitem config "settings" (VDict [])
             else Ret config) ;;
  settings <~ py_getitem config "settings" ;;
  settings' <~ py_setitem settings key (VInt value) ;;
  py_setitem config "settings" settings'.

(* ===================================================================== *)
(** ** Properties *)
(* ===================================================================== *)

(** *** Dictionaries and lists *)

Lemma dict_get_set_same (key : string) (v : value) (d : dict) :
  dict_get key (dict_set key v d) = Some v.
Proof.
  induction d as [| [k w] rest IH]; simpl.
  - now rewrite String.eqb_refl.
  - destruct (String.eqb key k) eqn:E; simpl; rewrite E; auto.
Qed.

Lemma dict_get_set_other (key key' : string) (v : value) (d : dict) :
  key <> key' ->
  dict_get key (dict_set key' v d) = dict_get key d.
Proof.
  intros Hne. induction d as [| [k w] rest IH]; simpl.
  - destruct (String.eqb_spec key key'); [contradiction | reflexivity].
  - destruct (String.eqb_spec key' k) as [Hk | Hk]; simpl.
    + destruct (String.eqb_spec key k); [congruence | reflexivity].
    + now rewrite IH.
Qed.

Lemma dict_set_absent (key : string) (v : value) (d : dict) :
  dict_get key d = None ->
  dict_set key v d = d ++ [(key, v)].
Proof.
  induction d as [| [k w] rest IH]; simpl; intros H.
  - reflexivity.
  - destruct (String.eqb key k); [discriminate | now rewrite IH].
Qed.

Lemma dict_get_app (key : string) (d e : dict) :
  dict_get key (d ++ e) =
  match dict_get key d with
  | Some v => Some v
  | None => dict_get key e
  end.
Proof.
  induction d as [| [k w] rest IH]; simpl.
  - reflexivity.
  - destruct (String.eqb key k); [reflexivity | apply IH].
Qed.

Lemma dict_has_false (key : string) (d : dict) :
  dict_has key d = false -> dict_get key d = None.
Proof.
  unfold dict_has. destruct (dict_get key d); [discriminate | reflexivity].
Qed.

Lemma dict_has_set (key key' : string) (v : value) (d : dict) :
  dict_has key (dict_set key' v d) = (String.eqb key key' || dict_has key d)%bool.
Proof.
  unfold dict_has. destruct (String.eqb_spec key key') as [-> | Hne].
  - now rewrite dict_get_set_same.
  - now rewrite dict_get_set_other.
Qed.

Lemma existsb_str_eq_value (s : string) (l : list value) :
  existsb (str_eq_value s) l = true <-> In (VStr s) l.
Proof.
  rewrite existsb_exists. split.
  - intros [x [Hin Heq]]. destruct x; simpl in Heq; try discriminate.
    apply String.eqb_eq in Heq. now subst.
  - intros Hin. exists (VStr s). split; [assumption | simpl; apply String.eqb_refl].
Qed.

Lemma existsb_str_eq_value_false (s : string) (l : list value) :
  existsb (str_eq_value s) l = false <-> ~ In (VStr s) l.
Proof.
  rewrite <- existsb_str_eq_value.
  destruct (existsb (str_eq_value s) l); split; intros H;
    try reflexivity; try discriminate; try congruence.
Qed.

Lemma in_dec_str (s : string) (l : list value) :
  {In (VStr s) l} + {~ In (VStr s) l}.
Proof.
  destruct (existsb (str_eq_value s) l) eqn:E.
  - left. now apply existsb_str_eq_value.
  - right. now apply existsb_str_eq_value_false.
Qed.

Lemma remove_first_split (s : string) (l : list value) :
  In (VStr s) l ->
  exists pre post,
    l = pre ++ VStr s :: post /\
    ~ In (VStr s) pre /\
    remove_first s l = Some (pre ++ post).
Proof.
  induction l as [| x rest IH]; intros Hin; [destruct Hin |].
  simpl. destruct (str_eq_value s x) eqn:E.
  - destruct x; simpl in E; try discriminate.
    apply String.eqb_eq in E. subst.
    exists [], rest. simpl. auto.
  - destruct Hin as [-> | Hin].
    + simpl in E. now rewrite String.eqb_refl in E.
    + destruct (IH Hin) as (pre & post & -> & Hpre & Hrm).
      rewrite Hrm. exists (x :: pre), post. repeat split; try reflexivity.
      intros [-> | H]; [| now apply Hpre].
      simpl in E. now rewrite String.eqb_refl in E.
Qed.

Lemma occurrences_app (s : string) (l m : list value) :
  occurrences s (l ++ m) = occurrences s l + occurrences s m.
Proof.
  unfold occurrences. now rewrite filter_app, length_app.
Qed.

Lemma occurrences_absent (s : string) (l : list value) :
  ~ In (VStr s) l -> occurrences s l = 0.
Proof.
  unfold occurrences. induction l as [| x rest IH]; simpl; intros H.
  - reflexivity.
  - destruct (str_eq_value s x) eqn:E.
    + exfalso. apply H. left. destruct x; simpl in E; try discriminate.
      apply String.eqb_eq in E. now subst.
    + apply IH. intros Hin. apply H. now right.
Qed.

Lemma occurrences_present (s : string) (l : list value) :
  In (VStr s) l -> 1 <= occurrences s l.
Proof.
  unfold occurrences. induction l as [| x rest IH]; simpl; intros H.
  - destruct H.
  - destruct (str_eq_value s x) eqn:E; simpl; [lia |].
    destruct H as [-> | H]; [| now apply IH].
    simpl in E. now rewrite String.eqb_refl in E.
Qed.

(** *** The merge with the defaults *)

Lemma merge_defaults_dict (d : dict) :
  merge_defaults default_items (VDict d) = Ret (VDict (d ++ missing_defaults d)).
Proof.
  unfold missing_defaults, default_items. simpl.
  destruct (dict_has "custom_repositories" d) eqn:Hrepos; simpl.
  - destruct (dict_has "settings" d) eqn:Hsettings; simpl.
    + now rewrite app_nil_r.
    + now rewrite (dict_set_absent _ _ _ (dict_has_false _ _ Hsettings)).
  - rewrite dict_has_set. simpl.
    rewrite (dict_set_absent _ _ _ (dict_has_false _ _ Hrepos)).
    destruct (dict_has "settings" d) eqn:Hsettings; simpl.
    + reflexivity.
    + rewrite dict_set_absent.
      * now rewrite <- app_assoc.
      * rewrite dict_get_app, (dict_has_false _ _ Hsettings). reflexivity.
Qed.

Lemma merge_defaults_complete (d : dict) :
  dict_has "custom_repositories" d = true ->
  dict_has "settings" d = true ->
  merge_defaults default_items (VDict d) = Ret (VDict d).
Proof.
  intros Hrepos Hsettings. rewrite merge_defaults_dict.
  unfold missing_defaults, default_items. simpl.
  rewrite Hrepos, Hsettings. simpl. now rewrite app_nil_r.
Qed.

Lemma merged_has_defaults (d : dict) :
  dict_has "custom_repositories" (d ++ missing_defaults d) = true /\
  dict_has "settings" (d ++ missing_defaults d) = true.
Proof.
  unfold missing_defaults, default_items, dict_has. simpl.
  rewrite !dict_get_app. unfold dict_has.
  destruct (dict_get "custom_repositories" d), (dict_get "settings" d);
    simpl; auto.
Qed.

(** The merge raises nothing but [TypeError]: the handler of [load_config]
    never sees its failures. *)
Lemma merge_defaults_raises (items : dict) (config : value) (e : exn) :
  merge_defaults items config = Raise e -> e = TypeError.
Proof.
  revert config. induction items as [| [key v] rest IH]; simpl; intros config H.
  - discriminate.
  - destruct (py_in key config) as [present | e'] eqn:Hin; simpl in H.
    + destruct present; simpl in H.
      * now apply IH in H.
      * destruct (py_setitem config key v) as [config' | e'] eqn:Hset; simpl in H.
        -- now apply IH in H.
        -- destruct config; simpl in Hset; congruence.
    + destruct config; simpl in Hin; congruence.
Qed.

(** What is not a dictionary comes out of the merge unchanged, if it comes
    out at all. *)
Lemma merge_defaults_shape (items : dict) (config config' : value) :
  merge_defaults items config = Ret config' ->
  (exists d, config = VDict d) \/ config' = config.
Proof.
  revert config. induction items as [| [key v] rest IH]; simpl; intros config H.
  - right. congruence.
  - destruct config as [| b | n | s | l | d]; try discriminate;
      try (left; eexists; reflexivity); right;
      cbn [py_in obind] in H.
    + destruct (is_substring key s); cbn [negb py_setitem obind] in H;
        [| discriminate].
      destruct (IH _ H) as [[d Hd] | ->]; [discriminate | reflexivity].
    + destruct (existsb (str_eq_value key) l); cbn [negb py_setitem obind] in H;
        [| discriminate].
      destruct (IH _ H) as [[d Hd] | ->]; [discriminate | reflexivity].
Qed.

(** *** [load_config] and [save_config], by cases on the file system *)

Lemma load_config_eq (fs : filesystem) :
  load_config fs =
  (match config_file fs with
   | None => Ret default_config
   | Some Unreadable => Ret default_config
   | Some (Text text) =>
       match json_load text with
       | Ret config => merge_defaults default_items config
       | Raise OSError | Raise JSONDecodeError => Ret default_config
       | Raise e => Raise e
       end
   end, fs).
Proof.
  unfold load_config, bind, exists_config_file, try_except, read_config_file,
    lift, ret.
  destruct (config_file fs) as [[| text] |] eqn:Hfile;
    cbn [negb existsb exn_eqb orb]; rewrite ?Hfile; try reflexivity.
  destruct (json_load text) as [config | e].
  - destruct (merge_defaults default_items config) as [c | e] eqn:Hm;
      [reflexivity |].
    apply merge_defaults_raises in Hm. now subst.
  - destruct e; reflexivity.
Qed.

Lemma load_config_state (fs : filesystem) : snd (load_config fs) = fs.
Proof. now rewrite load_config_eq. Qed.

Lemma load_config_dict_has_defaults (fs fs' : filesystem) (d : dict) :
  load_config fs = (Ret (VDict d), fs') ->
  dict_has "custom_repositories" d = true /\ dict_has "settings" d = true.
Proof.
  rewrite load_config_eq. intros H.
  assert (Hdef : dict_has "custom_repositories" default_items = true /\
                 dict_has "settings" default_items = true) by (split; reflexivity).
  destruct (config_file fs) as [[| text] |].
  - injection H as <- _. exact Hdef.
  - destruct (json_load text) as [config | e].
    + assert (Hm : merge_defaults default_items config = Ret (VDict d))
        by congruence.
      destruct (merge_defaults_shape _ _ _ Hm) as [[d0 Hc] | Hc]; subst config.
      * rewrite merge_defaults_dict in Hm. injection Hm as Hd. subst d.
        apply merged_has_defaults.
      * rewrite merge_defaults_dict in Hm. injection Hm as Hd.
        rewrite <- Hd. apply merged_has_defaults.
    + destruct e; try discriminate; injection H as <- _; exact Hdef.
  - injection H as <- _. exact Hdef.
Qed.

Lemma ensure_config_dir_eq (fs : filesystem) :
  ensure_config_dir fs =
  if dir_present fs then (Ret tt, fs)
  else if makedirs_ok fs then (Ret tt, with_config_dir fs)
  else (Raise OSError, fs).
Proof.
  unfold ensure_config_dir, bind, exists_config_dir, makedirs, ret.
  destruct (dir_present fs); simpl; [reflexivity |].
  unfold with_config_dir. destruct (makedirs_ok fs); reflexivity.
Qed.

(** The block around [json.dump] raises [OSError], or what [json.dump]
    raised. *)
Lemma write_config_file_raises (d : dumped) (fs fs' : filesystem) (e : exn) :
  write_config_file d fs = (Raise e, fs') ->
  e = OSError \/
  (exists partial, d = DumpFailed partial e /\
                   config_file fs' = Some (Text partial)).
Proof.
  unfold write_config_file.
  destruct (dir_present fs); simpl; [| intros H; left; congruence].
  destruct (config_file fs) as [[| t] |]; try (intros H; left; congruence);
    (destruct (writes fs); try (intros H; left; congruence);
     destruct d as [text | partial e']; [discriminate |];
     intros H; injection H as -> <-; right; exists partial; split; reflexivity).
Qed.

Lemma save_config_eq (config : value) (fs : filesystem) :
  save_config config fs =
  match ensure_config_dir fs with
  | (Ret _, fs1) =>
      match write_config_file (json_dump config) fs1 with
      | (Ret _, fs2) => (Ret true, fs2)
      | (Raise OSError, fs2) => (Ret false, fs2)
      | (Raise e, fs2) => (Raise e, fs2)
      end
  | (Raise e, fs1) => (Raise e, fs1)
  end.
Proof.
  unfold save_config, bind at 1.
  destruct (ensure_config_dir fs) as [[[] | e] fs1]; [| reflexivity].
  unfold try_except, bind, ret.
  destruct (write_config_file (json_dump config) fs1) as [[[] | e] fs2];
    [reflexivity |].
  destruct e; reflexivity.
Qed.

Lemma write_config_file_done (d : dumped) (fs fs' : filesystem) :
  write_config_file d fs = (Ret tt, fs') ->
  exists text, d = Dumped text /\ config_file fs' = Some (Text text).
Proof.
  unfold write_config_file.
  destruct (dir_present fs); simpl; [| congruence].
  destruct (config_file fs) as [[| t] |]; try congruence;
    (destruct (writes fs); try congruence;
     destruct d as [text | partial e]; [| discriminate];
     intros H; injection H as <-; exists text; split; reflexivity).
Qed.

Lemma save_config_done (config : value) (fs fs' : filesystem) :
  save_config config fs = (Ret true, fs') ->
  exists text,
    json_dump config = Dumped text /\ config_file fs' = Some (Text text).
Proof.
  rewrite save_config_eq.
  destruct (ensure_config_dir fs) as [[[] | e] fs1]; [| congruence].
  destruct (write_config_file (json_dump config) fs1) as [[[] | e] fs2] eqn:Hw;
    [| destruct e; congruence].
  intros H. injection H as <-. now apply write_config_file_done in Hw.
Qed.

(** Reading back what a successful [save_config] wrote. *)
Lemma load_after_save (d : dict) (fs fs' : filesystem) :
  dict_has "custom_repositories" d = true ->
  dict_has "settings" d = true ->
  round_trips (VDict d) ->
  save_config (VDict d) fs = (Ret true, fs') ->
  load_config fs' = (Ret (VDict d), fs').
Proof.
  intros Hrepos Hsettings Hrt Hsave.
  apply save_config_done in Hsave. destruct Hsave as (text & Hdump & Hfile).
  rewrite load_config_eq, Hfile, (Hrt text Hdump).
  now rewrite merge_defaults_complete.
Qed.

(** *** Loading and saving *)

(** C1. Round trip: for every configuration [C] (a dictionary) whose
    top-level keys include both ["custom_repositories"] and ["settings"],
    if [save_config C] returns [True], then a [load_config] right after it
    returns [C] (and leaves the file as it is).  The JSON library is
    assumed to read back what it printed for [C]. *)
Theorem save_config_load_config_round_trip (C : dict) (fs fs' : filesystem) :
  dict_has "custom_repositories" C = true ->
  dict_has "settings" C = true ->
  round_trips (VDict C) ->
  save_config (VDict C) fs = (Ret true, fs') ->
  load_config fs' = (Ret (VDict C), fs').
Proof.
  intros Hrepos Hsettings Hrt Hsave.
  exact (load_after_save C fs fs' Hrepos Hsettings Hrt Hsave).
Qed.

(** C2 (as the code has it).  [load_config] returns the full default
    configuration (no repositories, [cache_expiry = 300],
    [max_cache_size = 50]), raising nothing and leaving the file system
    untouched, when the file does not exist, when reading it fails with
    [OSError], and when [json.load] rejects its text with
    [JSONDecodeError].  (A file on which [json.load] raises an exception
    of another class is not read as the default configuration: the
    exception leaves [load_config].) *)
Theorem load_config_falls_back_to_default (fs : filesystem) :
  config_file fs = None \/
  config_file fs = Some Unreadable \/
  (exists text, config_file fs = Some (Text text) /\
                json_load text = Raise JSONDecodeError) ->
  load_config fs =
  (Ret (VDict [("custom_repositories", VList []);
               ("settings", VDict [("cache_expiry", VInt 300);
                                   ("max_cache_size", VInt 50)])]),
   fs).
Proof.
  intros [Habsent | [Hio | [text [Hfile Hparse]]]]; rewrite load_config_eq.
  - now rewrite Habsent.
  - now rewrite Hio.
  - now rewrite Hfile, Hparse.
Qed.

(** C3. When the stored document parses as an object [d], [load_config]
    returns an object in which each of the two default keys holds the
    stored value if [d] has the key and the built-in default otherwise; a
    stored [{}] gives the full default; and a stored ["settings"] value
    comes back as it is, with no default key added to it. *)
Theorem load_config_fills_missing_top_level_keys
    (fs : filesystem) (text : string) (d : dict) :
  config_file fs = Some (Text text) ->
  json_load text = Ret (VDict d) ->
  exists d',
    load_config fs = (Ret (VDict d'), fs) /\
    (forall key default,
        In (key, default) default_items ->
        dict_get key d' = Some (match dict_get key d with
                                | Some stored => stored
                                | None => default
                                end)) /\
    (d = [] -> VDict d' = default_config) /\
    (forall settings,
        dict_get "settings" d = Some settings ->
        dict_get "settings" d' = Some settings).
Proof.
  intros Hfile Hparse.
  exists (d ++ missing_defaults d).
  assert (Hget : forall key default,
             In (key, default) default_items ->
             dict_get key (d ++ missing_defaults d)
             = Some (match dict_get key d with
                     | Some stored => stored
                     | None => default
                     end)).
  { intros key default Hin. rewrite dict_get_app.
    destruct (dict_get key d) as [stored |] eqn:Hkey; [reflexivity |].
    unfold missing_defaults, default_items in *. simpl.
    destruct Hin as [Heq | [Heq | []]]; injection Heq as <- <-.
    - unfold dict_has at 1. rewrite Hkey. reflexivity.
    - destruct (dict_has "custom_repositories" d); simpl;
        unfold dict_has; rewrite Hkey; reflexivity. }
  repeat split.
  - rewrite load_config_eq, Hfile, Hparse. now rewrite merge_defaults_dict.
  - exact Hget.
  - intros ->. reflexivity.
  - intros settings Hsettings.
    rewrite (Hget "settings" (VDict [("cache_expiry", VInt 300);
                                     ("max_cache_size", VInt 50)])).
    + now rewrite Hsettings.
    + right. left. reflexivity.
Qed.

(** C8. When the stored document parses as an object [d], what
    [load_config] returns starts with the items of [d], in their order,
    and adds only missing defaults after them: every key other than the
    two known ones has the value it has in [d].  Saving what was loaded
    and loading again (the JSON library reading back what it printed)
    gives the same object, so such a key survives a load-then-save
    cycle. *)
Theorem load_config_keeps_unknown_keys
    (fs : filesystem) (text : string) (d : dict) :
  config_file fs = Some (Text text) ->
  json_load text = Ret (VDict d) ->
  exists d',
    load_config fs = (Ret (VDict d'), fs) /\
    (exists added, d' = d ++ added /\
                   forall kv, In kv added -> In kv default_items) /\
    (forall key,
        key <> "custom_repositories" -> key <> "settings" ->
        dict_get key d' = dict_get key d) /\
    (forall fs1,
        round_trips (VDict d') ->
        save_config (VDict d') fs = (Ret true, fs1) ->
        load_config fs1 = (Ret (VDict d'), fs1)).
Proof.
  intros Hfile Hparse.
  exists (d ++ missing_defaults d).
  assert (Hload : load_config fs = (Ret (VDict (d ++ missing_defaults d)), fs)).
  { rewrite load_config_eq, Hfile, Hparse. now rewrite merge_defaults_dict. }
  repeat split.
  - exact Hload.
  - exists (missing_defaults d). split; [reflexivity |].
    intros kv Hin. unfold missing_defaults in Hin.
    now apply filter_In in Hin.
  - intros key Hrepos Hsettings. rewrite dict_get_app.
    destruct (dict_get key d); [reflexivity |].
    unfold missing_defaults, default_items. simpl.
    destruct (dict_has "custom_repositories" d), (dict_has "settings" d); simpl;
      repeat match goal with
        | |- context [String.eqb key ?k] =>
            destruct (String.eqb_spec key k); [contradiction |]
        end; reflexivity.
  - intros fs1 Hrt Hsave.
    destruct (merged_has_defaults d) as [Hr Hs].
    exact (load_after_save _ fs fs1 Hr Hs Hrt Hsave).
Qed.

(** C9. The fallback of [load_config] stops at [OSError] and
    [JSONDecodeError]: when the file exists and its text is valid JSON for
    a value that is not an object, such as [5] or [[1, 2]], [load_config]
    raises [TypeError] instead of returning the default configuration. *)
Theorem load_config_raises_on_non_object (fs : filesystem) (text : string) :
  config_file fs = Some (Text text) ->
  json_load text = Ret (VInt 5) \/ json_load text = Ret (VList [VInt 1; VInt 2]) ->
  load_config fs = (Raise TypeError, fs).
Proof.
  intros Hfile [Hparse | Hparse]; rewrite load_config_eq, Hfile, Hparse;
    reflexivity.
Qed.

(** C10. [load_config], [get_custom_repositories] and [get_setting] leave
    the file system as they found it, whatever it holds and whatever they
    return or raise: the file has the same content, or is still absent. *)
Theorem read_only_operations_keep_file_system
    (fs : filesystem) (key : string) (default : option Z) :
  snd (load_config fs) = fs /\
  snd (get_custom_repositories fs) = fs /\
  snd (get_setting key default fs) = fs.
Proof.
  split; [apply load_config_state |].
  unfold get_custom_repositories, get_setting, bind, lift.
  pose proof (load_config_state fs) as Hload.
  destruct (load_config fs) as [[config | e] fs1]; simpl in Hload; subst fs1.
  - split; [reflexivity |].
    destruct (py_get config "settings" (VDict [])); reflexivity.
  - split; reflexivity.
Qed.

(** C6 (as the code has it).  In every file system in which the
    configuration directory exists or can be created, and for every
    configuration, [save_config] returns [True] when the write goes
    through and [False] when opening or writing the file raises [OSError],
    which never leaves it.  The one exception that can leave it there is
    an exception of another class that [json.dump] raises while it
    serialises the configuration: the [try] does not catch it, and the
    file is left with what had been written.  (A failure of [os.makedirs]
    is outside the [try] and reaches the caller.) *)
Theorem save_config_returns_boolean (config : value) (fs : filesystem) :
  dir_present fs = true \/ makedirs_ok fs = true ->
  exists fs_dir,
    ensure_config_dir fs = (Ret tt, fs_dir) /\
    ((exists fs',
         write_config_file (json_dump config) fs_dir = (Ret tt, fs') /\
         save_config config fs = (Ret true, fs')) \/
     (exists fs',
         write_config_file (json_dump config) fs_dir = (Raise OSError, fs') /\
         save_config config fs = (Ret false, fs')) \/
     (exists partial e fs',
         json_dump config = DumpFailed partial e /\
         e <> OSError /\
         save_config config fs = (Raise e, fs') /\
         config_file fs' = Some (Text partial))).
Proof.
  intros Hdir. rewrite save_config_eq, ensure_config_dir_eq.
  assert (Hcases : (if dir_present fs then (Ret tt, fs)
                    else if makedirs_ok fs then (Ret tt, with_config_dir fs)
                         else (Raise OSError, fs))
                   = (Ret tt, if dir_present fs then fs else with_config_dir fs)).
  { destruct (dir_present fs); [reflexivity |].
    destruct Hdir as [Hdir | ->]; [discriminate | reflexivity]. }
  rewrite Hcases. eexists. split; [reflexivity |].
  destruct (write_config_file (json_dump config) _) as [[[] | e] fs'] eqn:Hw.
  - left. exists fs'. split; reflexivity.
  - assert (Hcaught : e = OSError -> exists fs'0 : filesystem,
               (@Raise unit e, fs') = (Raise OSError, fs'0) /\
               match e with
               | OSError => (@Ret bool false, fs')
               | _ => (Raise e, fs')
               end = (Ret false, fs'0))
      by (intros ->; exists fs'; split; reflexivity).
    destruct (write_config_file_raises _ _ _ _ Hw)
      as [He | (partial & Hd & Hfile)]; [right; left; now apply Hcaught |].
    destruct (exn_eqb e OSError) eqn:Heq.
    + right. left. apply Hcaught. destruct e; try discriminate; reflexivity.
    + right. right. exists partial, e, fs'. repeat split; try assumption.
      * intros ->. discriminate.
      * destruct e; try reflexivity; discriminate.
Qed.

(** What [json.dump] raises outside [OSError] leaves [save_config], with
    the file holding what was written before. *)
Lemma save_config_propagates_dump_failure
    (config : value) (fs : filesystem) (partial : string) (e : exn) :
  json_dump config = DumpFailed partial e ->
  e <> OSError ->
  dir_present fs = true \/ makedirs_ok fs = true ->
  config_file fs <> Some Unreadable ->
  writes fs = Writable ->
  save_config config fs
  = (Raise e, mkFs true (makedirs_ok fs) (Some (Text partial)) (writes fs)).
Proof.
  intros Hdump He Hdir Hfile Hw.
  rewrite save_config_eq, ensure_config_dir_eq, Hdump.
  unfold write_config_file, with_config_dir.
  destruct fs as [dir mk file w]. simpl in *. subst w.
  assert (Hmatch : forall fs' : filesystem, match e with
                               | OSError => (Ret false, fs')
                               | _ => (@Raise bool e, fs')
                               end = (Raise e, fs'))
    by (intros fs'; destruct e; try reflexivity; contradiction).
  destruct dir; simpl.
  - destruct file as [[| content] |]; [contradiction | |]; apply Hmatch.
  - destruct Hdir as [Hdir | ->]; [discriminate |]. simpl.
    destruct file as [[| content] |]; [contradiction | |]; apply Hmatch.
Qed.

(** The other case: the directory is missing and [os.makedirs] fails.  The
    call is outside the [try] of [save_config]: the exception gets out and
    nothing is written. *)
Lemma save_config_propagates_makedirs_failure (config : value) (fs : filesystem) :
  dir_present fs = false ->
  makedirs_ok fs = false ->
  save_config config fs = (Raise OSError, fs).
Proof.
  intros Hdir Hmk. now rewrite save_config_eq, ensure_config_dir_eq, Hdir, Hmk.
Qed.

(** *** Repositories *)

Lemma add_custom_repository_eq
    (fs : filesystem) (config : dict) (repos : list value) (url : string) :
  load_config fs = (Ret (VDict config), fs) ->
  dict_get "custom_repositories" config = Some (VList repos) ->
  add_custom_repository url fs =
  if existsb (str_eq_value url) repos then (Ret false, fs)
  else save_config
         (VDict (dict_set "custom_repositories" (VList (repos ++ [VStr url]))
                          config)) fs.
Proof.
  intros Hload Hget. unfold add_custom_repository, bind at 1. rewrite Hload.
  unfold bind, lift, ret, py_getitem. rewrite Hget. simpl.
  destruct (existsb (str_eq_value url) repos); reflexivity.
Qed.

Lemma remove_custom_repository_eq
    (fs : filesystem) (config : dict) (repos : list value) (url : string) :
  load_config fs = (Ret (VDict config), fs) ->
  dict_get "custom_repositories" config = Some (VList repos) ->
  remove_custom_repository url fs =
  if existsb (str_eq_value url) repos then
    match remove_first url repos with
    | Some repos' =>
        save_config
          (VDict (dict_set "custom_repositories" (VList repos') config)) fs
    | None => (Raise ValueError, fs)
    end
  else (Ret false, fs).
Proof.
  intros Hload Hget. unfold remove_custom_repository, bind at 1. rewrite Hload.
  unfold bind, lift, ret, py_getitem. rewrite Hget. simpl.
  destruct (existsb (str_eq_value url) repos); [| reflexivity].
  destruct (remove_first url repos); reflexivity.
Qed.

Lemma get_custom_repositories_eq
    (fs : filesystem) (config : dict) (repos : value) :
  load_config fs = (Ret (VDict config), fs) ->
  dict_get "custom_repositories" config = Some repos ->
  get_custom_repositories fs = (Ret repos, fs).
Proof.
  intros Hload Hget. unfold get_custom_repositories, bind. rewrite Hload.
  unfold lift. simpl. now rewrite Hget.
Qed.

(** C5. With [repos] the stored repository list: if [url] is not in it,
    [remove_custom_repository url] returns [False] and leaves the file
    system as it is (nothing is saved); if it is, the first entry equal to
    [url] is removed, the other entries keep their order, and the call is
    [save_config] on the changed configuration, result included. *)
Theorem remove_custom_repository_cases
    (fs : filesystem) (config : dict) (repos : list value) (url : string) :
  load_config fs = (Ret (VDict config), fs) ->
  dict_get "custom_repositories" config = Some (VList repos) ->
  (~ In (VStr url) repos ->
   remove_custom_repository url fs = (Ret false, fs)) /\
  (In (VStr url) repos ->
   exists before after,
     repos = before ++ VStr url :: after /\
     ~ In (VStr url) before /\
     remove_custom_repository url fs =
     save_config
       (VDict (dict_set "custom_repositories" (VList (before ++ after)) config))
       fs).
Proof.
  intros Hload Hget.
  rewrite (remove_custom_repository_eq fs config repos url Hload Hget).
  split.
  - intros Habsent. apply existsb_str_eq_value_false in Habsent.
    now rewrite Habsent.
  - intros Hpresent.
    destruct (remove_first_split url repos Hpresent)
      as (before & after & Hrepos & Hbefore & Hremove).
    exists before, after. repeat split; try assumption.
    apply existsb_str_eq_value in Hpresent. now rewrite Hpresent, Hremove.
Qed.

(** C4 (as the code has it).  With [repos] the stored repository list: if
    [url] is in it, [add_custom_repository url] returns [False] and saves
    nothing; otherwise the call is [save_config] on the configuration with
    [url] added after the entries of [repos], result included.  When [url]
    occurs at most once in [repos], and either it occurs there or the first
    call returns [True] (its save went through, the JSON library reading
    back what it printed), a second call with the same [url] returns
    [False] and the stored list holds [url] exactly once. *)
Theorem add_custom_repository_cases
    (fs : filesystem) (config : dict) (repos : list value) (url : string) :
  load_config fs = (Ret (VDict config), fs) ->
  dict_get "custom_repositories" config = Some (VList repos) ->
  let config' :=
    VDict (dict_set "custom_repositories" (VList (repos ++ [VStr url])) config) in
  (In (VStr url) repos ->
   add_custom_repository url fs = (Ret false, fs)) /\
  (~ In (VStr url) repos ->
   add_custom_repository url fs = save_config config' fs) /\
  (forall first fs1,
      add_custom_repository url fs = (Ret first, fs1) ->
      occurrences url repos <= 1 ->
      In (VStr url) repos \/ (first = true /\ round_trips config') ->
      exists repos2,
        add_custom_repository url fs1 = (Ret false, fs1) /\
        get_custom_repositories fs1 = (Ret (VList repos2), fs1) /\
        occurrences url repos2 = 1).
Proof.
  intros Hload Hget config'.
  pose proof (add_custom_repository_eq fs config repos url Hload Hget) as Hadd.
  fold config' in Hadd.
  assert (Hin : In (VStr url) repos -> add_custom_repository url fs = (Ret false, fs)).
  { intros Hpresent. apply existsb_str_eq_value in Hpresent.
    now rewrite Hadd, Hpresent. }
  assert (Hout : ~ In (VStr url) repos ->
                 add_custom_repository url fs = save_config config' fs).
  { intros Habsent. apply existsb_str_eq_value_false in Habsent.
    now rewrite Hadd, Habsent. }
  repeat split; try assumption.
  intros first fs1 Hfirst Hmost Hcase.
  destruct (in_dec_str url repos) as [Hpresent | Habsent].
  - (* already stored: both calls change nothing *)
    rewrite (Hin Hpresent) in Hfirst. injection Hfirst as <- <-.
    exists repos. repeat split.
    + exact (Hin Hpresent).
    + exact (get_custom_repositories_eq fs config _ Hload Hget).
    + pose proof (occurrences_present url repos Hpresent). lia.
  - (* not stored: the first call saved [config'] *)
    destruct Hcase as [Hpresent | [-> Hrt]]; [contradiction |].
    rewrite (Hout Habsent) in Hfirst.
    destruct (load_config_dict_has_defaults fs fs config Hload) as [Hr Hs].
    assert (Hload1 : load_config fs1 = (Ret config', fs1)).
    { apply (load_after_save _ fs fs1); try assumption.
      - now rewrite dict_has_set.
      - rewrite dict_has_set, Hs. apply orb_true_r. }
    assert (Hget1 : dict_get "custom_repositories"
                      (dict_set "custom_repositories"
                                (VList (repos ++ [VStr url])) config)
                    = Some (VList (repos ++ [VStr url])))
      by apply dict_get_set_same.
    exists (repos ++ [VStr url]). repeat split.
    + rewrite (add_custom_repository_eq fs1 _ _ url Hload1 Hget1).
      rewrite existsb_app. simpl. rewrite String.eqb_refl.
      now rewrite orb_true_r.
    + exact (get_custom_repositories_eq fs1 _ _ Hload1 Hget1).
    + rewrite occurrences_app, (occurrences_absent url repos Habsent).
      unfold occurrences. simpl. now rewrite String.eqb_refl.
Qed.

(** *** Settings *)

Lemma set_setting_eq (fs : filesystem) (key : string) (n : Z) :
  set_setting key n fs =
  match load_config fs with
  | (Ret config, fs1) =>
      match with_setting key n config with
      | Ret config' => save_config config' fs1
      | Raise e => (Raise e, fs1)
      end
  | (Raise e, fs1) => (Raise e, fs1)
  end.
Proof.
  unfold set_setting, with_setting, bind at 1.
  destruct (load_config fs) as [[config | e] fs1]; [| reflexivity].
  unfold bind, lift.
  destruct (py_in "settings" config) as [present | e]; [| reflexivity].
  cbn [obind].
  destruct (if negb present then py_setitem config "settings" (VDict [])
            else Ret config) as [config1 | e]; [| reflexivity].
  cbn [obind].
  destruct (py_getitem config1 "settings") as [settings | e]; [| reflexivity].
  cbn [obind].
  destruct (py_setitem settings key (VInt n)) as [settings' | e];
    [| reflexivity].
  cbn [obind].
  destruct (py_setitem config1 "settings" settings'); reflexivity.
Qed.

(** What [set_setting] saves is an object whose ["settings"] mapping maps
    [key] to the new value. *)
Lemma with_setting_shape (key : string) (n : Z) (config config' : value) :
  with_setting key n config = Ret config' ->
  exists d settings,
    config' = VDict d /\
    dict_get "settings" d = Some (VDict settings) /\
    dict_get key settings = Some (VInt n).
Proof.
  unfold with_setting.
  destruct (py_in "settings" config) as [present | e]; [| discriminate].
  cbn [obind].
  destruct (if negb present then py_setitem config "settings" (VDict [])
            else Ret config) as [config1 | e]; [| discriminate].
  cbn [obind].
  destruct (py_getitem config1 "settings") as [settings | e]; [| discriminate].
  cbn [obind].
  destruct settings as [| b | m | t | l | settings]; try discriminate.
  destruct config1 as [| b | m | t | l | d1]; try discriminate.
  cbn [py_setitem obind]. intros H. injection H as <-.
  eexists. eexists. split; [reflexivity |].
  split; apply dict_get_set_same.
Qed.

Lemma get_setting_eq
    (fs : filesystem) (config settings : dict) (key : string)
    (default : option Z) :
  load_config fs = (Ret (VDict config), fs) ->
  dict_get "settings" config = Some (VDict settings) ->
  get_setting key default fs =
  (Ret (match dict_get key settings with
        | Some v => v
        | None => of_default default
        end), fs).
Proof.
  intros Hload Hget. unfold get_setting, bind. rewrite Hload.
  unfold lift. simpl. rewrite Hget. cbn [py_get].
  destruct (dict_get key settings); reflexivity.
Qed.

(** C7. If [set_setting key n] returns [True] (the JSON library reading
    back what it printed), a following [get_setting key] returns [n]: in
    particular [get_setting "x"] returns [1] after [set_setting "x" 1].
    And for every key absent from the settings mapping of the current
    configuration, [get_setting key default] returns the default it was
    given, which is [None] when none was given. *)
Theorem setting_set_then_get_and_default :
  (forall (fs fs1 : filesystem) (config config' : value) (key : string)
          (n : Z) (default : option Z),
      load_config fs = (Ret config, fs) ->
      with_setting key n config = Ret config' ->
      round_trips config' ->
      set_setting key n fs = (Ret true, fs1) ->
      get_setting key default fs1 = (Ret (VInt n), fs1)) /\
  (forall (fs : filesystem) (config settings : dict) (key : string)
          (default : option Z),
      load_config fs = (Ret (VDict config), fs) ->
      dict_get "settings" config = Some (VDict settings) ->
      dict_get key settings = None ->
      get_setting key default fs = (Ret (of_default default), fs)).
Proof.
  split.
  - intros fs fs1 config config' key n default Hload Hwith Hrt Hset.
    rewrite set_setting_eq, Hload, Hwith in Hset.
    destruct (with_setting_shape key n config config' Hwith)
      as (d & settings & -> & Hsettings & Hkey).
    apply save_config_done in Hset. destruct Hset as (text & Hdump & Hfile).
    assert (Hload1 : load_config fs1
                     = (Ret (VDict (d ++ missing_defaults d)), fs1)).
    { rewrite load_config_eq, Hfile, (Hrt text Hdump).
      now rewrite merge_defaults_dict. }
    rewrite (get_setting_eq fs1 _ settings key default Hload1).
    + now rewrite Hkey.
    + now rewrite dict_get_app, Hsettings.
  - intros fs config settings key default Hload Hsettings Hkey.
    rewrite (get_setting_eq fs config settings key default Hload Hsettings).
    now rewrite Hkey.
Qed.

(* ===================================================================== *)
(** ** Further properties of [config.py] *)
(* ===================================================================== *)

(** *** More on dictionaries and lists *)

Lemma dict_set_same_value (key : string) (v : value) (d : dict) :
  dict_get key d = Some v -> dict_set key v d = d.
Proof.
  induction d as [| [k w] rest IH]; simpl; [discriminate |].
  destruct (String.eqb key k); intros H.
  - now injection H as ->.
  - now rewrite IH.
Qed.

Lemma dict_set_set (key : string) (v w : value) (d : dict) :
  dict_set key v (dict_set key w d) = dict_set key v d.
Proof.
  induction d as [| [k x] rest IH]; simpl.
  - now rewrite String.eqb_refl.
  - destruct (String.eqb key k) eqn:E; simpl; rewrite E; [reflexivity |].
    now rewrite IH.
Qed.

Lemma remove_first_app_absent (s : string) (l : list value) :
  ~ In (VStr s) l -> remove_first s (l ++ [VStr s]) = Some l.
Proof.
  induction l as [| x rest IH]; simpl; intros H.
  - now rewrite String.eqb_refl.
  - destruct (str_eq_value s x) eqn:E.
    + exfalso. apply H. left. destruct x; simpl in E; try discriminate.
      apply String.eqb_eq in E. now subst.
    + rewrite IH; [reflexivity |]. intros Hin. apply H. now right.
Qed.

Lemma remove_first_occurrences (s : string) (l l' : list value) :
  remove_first s l = Some l' ->
  occurrences s l = S (occurrences s l') /\
  forall t, t <> s -> occurrences t l' = occurrences t l.
Proof.
  unfold occurrences. revert l'.
  induction l as [| x rest IH]; simpl; intros l' H; [discriminate |].
  destruct (str_eq_value s x) eqn:E.
  - injection H as <-. split; [reflexivity |].
    intros t Hne. destruct x; simpl in E; try discriminate.
    apply String.eqb_eq in E. subst. simpl.
    destruct (String.eqb_spec t s0); [contradiction | reflexivity].
  - destruct (remove_first s rest) as [rest' |]; [| discriminate].
    injection H as <-. destruct (IH rest' eq_refl) as [Hs Ht]. simpl.
    rewrite E. split; [exact Hs |].
    intros t Hne. destruct (str_eq_value t x); simpl; now rewrite (Ht t Hne).
Qed.

Lemma occurrences_none (s : string) (l : list value) :
  occurrences s l = 0 -> ~ In (VStr s) l.
Proof.
  intros H Hin. pose proof (occurrences_present s l Hin). lia.
Qed.

(** *** What the operations do after [load_config] *)

(** Loading what a successful [save_config] wrote, when the saved
    configuration is a loaded one with one key changed. *)
Lemma load_after_update
    (fs fs0 fs1 : filesystem) (config : dict) (key : string) (v : value) :
  load_config fs0 = (Ret (VDict config), fs0) ->
  round_trips (VDict (dict_set key v config)) ->
  save_config (VDict (dict_set key v config)) fs = (Ret true, fs1) ->
  load_config fs1 = (Ret (VDict (dict_set key v config)), fs1).
Proof.
  intros Hload Hrt Hsave.
  destruct (load_config_dict_has_defaults fs0 fs0 config Hload) as [Hr Hs].
  apply (load_after_save _ fs fs1); try assumption;
    rewrite dict_has_set; [rewrite Hr | rewrite Hs]; apply orb_true_r.
Qed.

Lemma set_setting_dict_eq
    (fs : filesystem) (config settings : dict) (key : string) (n : Z) :
  load_config fs = (Ret (VDict config), fs) ->
  dict_get "settings" config = Some (VDict settings) ->
  set_setting key n fs =
  save_config
    (VDict (dict_set "settings" (VDict (dict_set key (VInt n) settings)) config))
    fs.
Proof.
  intros Hload Hget. rewrite set_setting_eq, Hload.
  unfold with_setting. cbn [py_in obind]. unfold dict_has. rewrite Hget.
  cbn [negb obind py_getitem]. rewrite Hget. reflexivity.
Qed.

(** Every operation starts with [load_config] and handles nothing: what
    [load_config] raises, the operation raises. *)
Lemma operations_raise_with_load_config
    (fs : filesystem) (e : exn) (url key : string) (n : Z) (default : option Z) :
  load_config fs = (Raise e, fs) ->
  get_custom_repositories fs = (Raise e, fs) /\
  get_setting key default fs = (Raise e, fs) /\
  add_custom_repository url fs = (Raise e, fs) /\
  remove_custom_repository url fs = (Raise e, fs) /\
  set_setting key n fs = (Raise e, fs).
Proof.
  intros Hload.
  unfold get_custom_repositories, get_setting, add_custom_repository,
    remove_custom_repository, set_setting, bind.
  rewrite Hload. repeat split.
Qed.

(** X1. [ensure_config_dir] is idempotent and touches nothing but the
    directory: when it returns, the directory exists, the file and the way
    writes behave are as before, and calling it again changes nothing. *)
Theorem ensure_config_dir_idempotent (fs fs1 : filesystem) :
  ensure_config_dir fs = (Ret tt, fs1) ->
  dir_present fs1 = true /\
  config_file fs1 = config_file fs /\
  writes fs1 = writes fs /\
  ensure_config_dir fs1 = (Ret tt, fs1).
Proof.
  rewrite ensure_config_dir_eq. intros H.
  assert (Hfs1 : dir_present fs1 = true /\ config_file fs1 = config_file fs /\
                 writes fs1 = writes fs).
  { destruct (dir_present fs) eqn:Hdir.
    - injection H as <-. auto.
    - destruct (makedirs_ok fs); [| discriminate].
      injection H as <-. repeat split. }
  destruct Hfs1 as (Hdir1 & Hfile & Hwrites).
  repeat split; try assumption.
  now rewrite ensure_config_dir_eq, Hdir1.
Qed.

Lemma merge_defaults_has_keys (stored config : value) :
  merge_defaults default_items stored = Ret config ->
  py_in "custom_repositories" config = Ret true /\
  py_in "settings" config = Ret true.
Proof.
  intros H.
  destruct (merge_defaults_shape _ _ _ H) as [[d Hd] | Hsame]; subst.
  - rewrite merge_defaults_dict in H. injection H as <-.
    destruct (merged_has_defaults d) as [Hr Hs]. cbn [py_in]. now rewrite Hr, Hs.
  - destruct stored as [| b | n | s | l | d]; try discriminate.
    + cbn [merge_defaults default_items py_in obind] in H.
      destruct (is_substring "custom_repositories" s) eqn:E1;
        cbn [negb py_setitem obind py_in] in H; [| discriminate].
      destruct (is_substring "settings" s) eqn:E2;
        cbn [negb py_setitem obind] in H; [| discriminate].
      cbn [py_in]. now rewrite E1, E2.
    + cbn [merge_defaults default_items py_in obind] in H.
      destruct (existsb (str_eq_value "custom_repositories") l) eqn:E1;
        cbn [negb py_setitem obind py_in] in H; [| discriminate].
      destruct (existsb (str_eq_value "settings") l) eqn:E2;
        cbn [negb py_setitem obind] in H; [| discriminate].
      cbn [py_in]. now rewrite E1, E2.
    + rewrite merge_defaults_dict in H. injection H as Hd.
      destruct (merged_has_defaults d) as [Hr Hs]. rewrite Hd in Hr, Hs.
      cbn [py_in]. now rewrite Hr, Hs.
Qed.

(** X2. Whatever [load_config] returns has both known keys, in the sense
    of Python's [in]: ["custom_repositories" in config] and
    ["settings" in config] are [True]; when it is a dictionary, it holds
    both keys. *)
Theorem load_config_result_has_both_keys (fs fs' : filesystem) (config : value) :
  load_config fs = (Ret config, fs') ->
  py_in "custom_repositories" config = Ret true /\
  py_in "settings" config = Ret true.
Proof.
  rewrite load_config_eq. intros Hload.
  assert (Hdef : py_in "custom_repositories" default_config = Ret true /\
                 py_in "settings" default_config = Ret true)
    by (split; reflexivity).
  destruct (config_file fs) as [[| text] |].
  - injection Hload as <- _. exact Hdef.
  - destruct (json_load text) as [stored | e].
    + apply (merge_defaults_has_keys stored). congruence.
    + destruct e; try discriminate; injection Hload as <- _; exact Hdef.
  - injection Hload as <- _. exact Hdef.
Qed.

(** X3. [load_config] never raises [OSError] or [JSONDecodeError]: the
    only exceptions that leave it are the [TypeError] of the merge loop and
    what [json.load] raises outside these two classes; the file system is
    as before in every case. *)
Theorem load_config_never_raises_handled_classes
    (fs fs' : filesystem) (e : exn) :
  load_config fs = (Raise e, fs') ->
  e <> OSError /\ e <> JSONDecodeError /\ fs' = fs /\
  exists text,
    config_file fs = Some (Text text) /\
    (json_load text = Raise e \/
     exists stored, json_load text = Ret stored /\ e = TypeError).
Proof.
  rewrite load_config_eq. intros Hload.
  destruct (config_file fs) as [[| text] |]; try discriminate.
  destruct (json_load text) as [stored | e'] eqn:Hparse.
  - assert (Hm : merge_defaults default_items stored = Raise e) by congruence.
    assert (Hfs : fs' = fs) by congruence.
    apply merge_defaults_raises in Hm. subst e fs'.
    repeat split; try discriminate.
    exists text. split; [reflexivity |]. right. now exists stored.
  - destruct e'; try discriminate; injection Hload as <- <-;
      (repeat split; try discriminate);
      exists text; (split; [reflexivity |]); now left.
Qed.

(** X4. An exception of [json.load] outside the two handled classes, such
    as the [UnicodeDecodeError] of a file that is not UTF-8, is not turned
    into the default configuration: [load_config] and every operation raise
    it, and nothing is written. *)
Theorem unhandled_json_load_exception_reaches_caller
    (fs : filesystem) (text : string) (e : exn)
    (url key : string) (n : Z) (default : option Z) :
  config_file fs = Some (Text text) ->
  json_load text = Raise e ->
  e <> OSError ->
  e <> JSONDecodeError ->
  load_config fs = (Raise e, fs) /\
  get_custom_repositories fs = (Raise e, fs) /\
  get_setting key default fs = (Raise e, fs) /\
  add_custom_repository url fs = (Raise e, fs) /\
  remove_custom_repository url fs = (Raise e, fs) /\
  set_setting key n fs = (Raise e, fs).
Proof.
  intros Hfile Hparse Hos Hjson.
  assert (Hload : load_config fs = (Raise e, fs)).
  { rewrite load_config_eq, Hfile, Hparse.
    destruct e; try reflexivity; contradiction. }
  split; [exact Hload |].
  now apply operations_raise_with_load_config.
Qed.

(** X5. A stored document that is valid JSON for [null], a boolean or a
    number makes every operation raise [TypeError], the setters included:
    nothing is read as default and nothing is written. *)
Theorem scalar_document_breaks_every_operation
    (fs : filesystem) (text : string) (stored : value)
    (url key : string) (n : Z) (default : option Z) :
  config_file fs = Some (Text text) ->
  json_load text = Ret stored ->
  stored = VNone \/ (exists b, stored = VBool b) \/ (exists m, stored = VInt m) ->
  load_config fs = (Raise TypeError, fs) /\
  get_custom_repositories fs = (Raise TypeError, fs) /\
  get_setting key default fs = (Raise TypeError, fs) /\
  add_custom_repository url fs = (Raise TypeError, fs) /\
  remove_custom_repository url fs = (Raise TypeError, fs) /\
  set_setting key n fs = (Raise TypeError, fs).
Proof.
  intros Hfile Hparse Hscalar.
  assert (Hload : load_config fs = (Raise TypeError, fs)).
  { rewrite load_config_eq, Hfile, Hparse.
    destruct Hscalar as [-> | [[b ->] | [m ->]]]; reflexivity. }
  split; [exact Hload |].
  now apply operations_raise_with_load_config.
Qed.

(** *** How the operations compose *)

Lemma load_config_default_cases (fs : filesystem) :
  config_file fs = None \/
  config_file fs = Some Unreadable \/
  (exists text, config_file fs = Some (Text text) /\
                json_load text = Raise JSONDecodeError) ->
  load_config fs = (Ret default_config, fs).
Proof.
  intros [H | [H | [text [H Hparse]]]]; rewrite load_config_eq, H;
    [reflexivity | reflexivity | now rewrite Hparse].
Qed.

Lemma get_setting_of_config
    (fs : filesystem) (config : dict) (key : string) (default : option Z) :
  load_config fs = (Ret (VDict config), fs) ->
  get_setting key default fs =
  (settings <~ py_get (VDict config) "settings" (VDict []) ;;
   py_get settings key (of_default default), fs).
Proof.
  intros Hload. unfold get_setting, bind, lift. rewrite Hload.
  destruct (py_get (VDict config) "settings" (VDict [])); reflexivity.
Qed.

(** X6. Adding a URL that is not stored and then removing it puts the
    stored configuration back: if the add returns [True], the remove saves
    exactly the configuration that was loaded before the add, and if that
    save returns [True] too, [load_config] returns it again. *)
Theorem add_then_remove_restores_configuration
    (fs fs1 : filesystem) (config : dict) (repos : list value) (url : string) :
  load_config fs = (Ret (VDict config), fs) ->
  dict_get "custom_repositories" config = Some (VList repos) ->
  round_trips
    (VDict (dict_set "custom_repositories" (VList (repos ++ [VStr url])) config)) ->
  add_custom_repository url fs = (Ret true, fs1) ->
  remove_custom_repository url fs1 = save_config (VDict config) fs1 /\
  forall fs2,
    round_trips (VDict config) ->
    remove_custom_repository url fs1 = (Ret true, fs2) ->
    load_config fs2 = (Ret (VDict config), fs2).
Proof.
  intros Hload Hget Hrt Hadd.
  rewrite (add_custom_repository_eq fs config repos url Hload Hget) in Hadd.
  destruct (existsb (str_eq_value url) repos) eqn:Hin; [discriminate |].
  apply existsb_str_eq_value_false in Hin.
  pose proof (load_after_update fs fs fs1 config _ _ Hload Hrt Hadd) as Hload1.
  assert (Hremove : remove_custom_repository url fs1
                    = save_config (VDict config) fs1).
  { rewrite (remove_custom_repository_eq fs1 _ (repos ++ [VStr url]) url Hload1
               (dict_get_set_same _ _ _)).
    rewrite existsb_app. simpl. rewrite String.eqb_refl, orb_true_r.
    rewrite (remove_first_app_absent url repos Hin).
    now rewrite dict_set_set, (dict_set_same_value _ _ _ Hget). }
  split; [exact Hremove |].
  intros fs2 Hrt0 Hsecond. rewrite Hremove in Hsecond.
  destruct (load_config_dict_has_defaults fs fs config Hload) as [Hr Hs].
  exact (load_after_save config fs1 fs2 Hr Hs Hrt0 Hsecond).
Qed.

(** X7. A successful [set_setting key n] changes that one setting only:
    afterwards [get_setting] on any other key returns what it returned
    before, [get_custom_repositories] returns what it returned before, and
    every top-level key but ["settings"] holds the value it held. *)
Theorem set_setting_changes_one_setting
    (fs fs1 : filesystem) (config settings : dict) (key : string) (n : Z) :
  load_config fs = (Ret (VDict config), fs) ->
  dict_get "settings" config = Some (VDict settings) ->
  round_trips
    (VDict (dict_set "settings" (VDict (dict_set key (VInt n) settings)) config)) ->
  set_setting key n fs = (Ret true, fs1) ->
  (forall other default,
      other <> key ->
      get_setting other default fs1 = (fst (get_setting other default fs), fs1)) /\
  get_custom_repositories fs1 = (fst (get_custom_repositories fs), fs1) /\
  exists config1,
    load_config fs1 = (Ret (VDict config1), fs1) /\
    forall k, k <> "settings" -> dict_get k config1 = dict_get k config.
Proof.
  intros Hload Hget Hrt Hset.
  rewrite (set_setting_dict_eq fs config settings key n Hload Hget) in Hset.
  pose proof (load_after_update fs fs fs1 config _ _ Hload Hrt Hset) as Hload1.
  split; [| split].
  - intros other default Hne.
    rewrite (get_setting_eq fs1 _ _ other default Hload1 (dict_get_set_same _ _ _)).
    rewrite (get_setting_eq fs config settings other default Hload Hget).
    now rewrite (dict_get_set_other other key _ settings Hne).
  - unfold get_custom_repositories, bind, lift. rewrite Hload, Hload1.
    cbn [py_get fst]. rewrite dict_get_set_other by discriminate. reflexivity.
  - eexists. split; [exact Hload1 |].
    intros k Hk. now apply dict_get_set_other.
Qed.

(** X8. A successful [add_custom_repository url] changes the repository
    list only: afterwards [get_custom_repositories] returns the former
    list followed by [url], [get_setting] returns on every key what it
    returned before, and every top-level key but ["custom_repositories"]
    holds the value it held. *)
Theorem add_custom_repository_changes_the_list_only
    (fs fs1 : filesystem) (config : dict) (repos : list value) (url : string) :
  load_config fs = (Ret (VDict config), fs) ->
  dict_get "custom_repositories" config = Some (VList repos) ->
  round_trips
    (VDict (dict_set "custom_repositories" (VList (repos ++ [VStr url])) config)) ->
  add_custom_repository url fs = (Ret true, fs1) ->
  get_custom_repositories fs1 = (Ret (VList (repos ++ [VStr url])), fs1) /\
  (forall key default,
      get_setting key default fs1 = (fst (get_setting key default fs), fs1)) /\
  exists config1,
    load_config fs1 = (Ret (VDict config1), fs1) /\
    forall k, k <> "custom_repositories" -> dict_get k config1 = dict_get k config.
Proof.
  intros Hload Hget Hrt Hadd.
  rewrite (add_custom_repository_eq fs config repos url Hload Hget) in Hadd.
  destruct (existsb (str_eq_value url) repos); [discriminate |].
  pose proof (load_after_update fs fs fs1 config _ _ Hload Hrt Hadd) as Hload1.
  split; [| split].
  - exact (get_custom_repositories_eq fs1 _ _ Hload1 (dict_get_set_same _ _ _)).
  - intros key default.
    rewrite (get_setting_of_config fs1 _ key default Hload1).
    rewrite (get_setting_of_config fs config key default Hload).
    cbn [py_get fst]. rewrite dict_get_set_other by discriminate. reflexivity.
  - eexists. split; [exact Hload1 |].
    intros k Hk. now apply dict_get_set_other.
Qed.

(** X9. When the file is missing, when opening or reading it raises
    [OSError], and when [json.load] rejects its text with
    [JSONDecodeError], the
    setters start from the defaults: [add_custom_repository url] saves the
    default configuration with [url] as its only repository,
    [set_setting key n] saves the default configuration with that setting,
    so that a save that goes through replaces whatever the file held; and
    [remove_custom_repository] returns [False] without saving. *)
Theorem unusable_file_is_replaced_by_defaults
    (fs : filesystem) (url key : string) (n : Z) :
  config_file fs = None \/
  config_file fs = Some Unreadable \/
  (exists text, config_file fs = Some (Text text) /\
                json_load text = Raise JSONDecodeError) ->
  add_custom_repository url fs =
  save_config
    (VDict [("custom_repositories", VList [VStr url]);
            ("settings", VDict [("cache_expiry", VInt 300);
                                ("max_cache_size", VInt 50)])]) fs /\
  set_setting key n fs =
  save_config
    (VDict [("custom_repositories", VList []);
            ("settings",
             VDict (dict_set key (VInt n)
                             [("cache_expiry", VInt 300);
                              ("max_cache_size", VInt 50)]))]) fs /\
  remove_custom_repository url fs = (Ret false, fs).
Proof.
  intros Hcases. apply load_config_default_cases in Hcases.
  split; [| split].
  - now rewrite (add_custom_repository_eq fs default_items [] url Hcases eq_refl).
  - now rewrite (set_setting_dict_eq fs default_items _ key n Hcases eq_refl).
  - now rewrite (remove_custom_repository_eq fs default_items [] url Hcases eq_refl).
Qed.

(** X10. A successful [remove_custom_repository url] takes one occurrence
    of [url] out of the stored list and leaves the number of occurrences
    of every other entry; if [url] was stored once, it is no longer
    listed and a second remove returns [False] without saving. *)
Theorem remove_custom_repository_takes_one_occurrence
    (fs fs1 : filesystem) (config : dict) (repos repos' : list value)
    (url : string) :
  load_config fs = (Ret (VDict config), fs) ->
  dict_get "custom_repositories" config = Some (VList repos) ->
  remove_first url repos = Some repos' ->
  round_trips (VDict (dict_set "custom_repositories" (VList repos') config)) ->
  remove_custom_repository url fs = (Ret true, fs1) ->
  get_custom_repositories fs1 = (Ret (VList repos'), fs1) /\
  occurrences url repos = S (occurrences url repos') /\
  (forall other, other <> url ->
                 occurrences other repos' = occurrences other repos) /\
  (occurrences url repos = 1 ->
   ~ In (VStr url) repos' /\
   remove_custom_repository url fs1 = (Ret false, fs1)).
Proof.
  intros Hload Hget Hfirst Hrt Hremove.
  rewrite (remove_custom_repository_eq fs config repos url Hload Hget) in Hremove.
  destruct (existsb (str_eq_value url) repos); [| discriminate].
  rewrite Hfirst in Hremove.
  pose proof (load_after_update fs fs fs1 config _ _ Hload Hrt Hremove) as Hload1.
  destruct (remove_first_occurrences url repos repos' Hfirst) as [Hocc Hother].
  split; [| split; [exact Hocc | split; [exact Hother |]]].
  - exact (get_custom_repositories_eq fs1 _ _ Hload1 (dict_get_set_same _ _ _)).
  - intros Honce.
    assert (Habsent : ~ In (VStr url) repos')
      by (apply occurrences_none; lia).
    split; [exact Habsent |].
    rewrite (remove_custom_repository_eq fs1 _ repos' url Hload1
               (dict_get_set_same _ _ _)).
    apply existsb_str_eq_value_false in Habsent. now rewrite Habsent.
Qed.

(** *** Stored documents of another shape *)

(** X11. A stored JSON value that is not an object but in which Python's
    [in] finds both key names (a list that has both strings, a string that
    has both as substrings) goes through [load_config] untouched; the
    readers then raise [AttributeError] and the setters [TypeError], and
    nothing is written. *)
Theorem non_object_with_both_names_is_returned
    (fs : filesystem) (text : string) (stored : value)
    (url key : string) (n : Z) (default : option Z) :
  config_file fs = Some (Text text) ->
  json_load text = Ret stored ->
  (forall d, stored <> VDict d) ->
  py_in "custom_repositories" stored = Ret true ->
  py_in "settings" stored = Ret true ->
  load_config fs = (Ret stored, fs) /\
  get_custom_repositories fs = (Raise AttributeError, fs) /\
  get_setting key default fs = (Raise AttributeError, fs) /\
  add_custom_repository url fs = (Raise TypeError, fs) /\
  remove_custom_repository url fs = (Raise TypeError, fs) /\
  set_setting key n fs = (Raise TypeError, fs).
Proof.
  intros Hfile Hparse Hshape Hrepos Hsettings.
  assert (Hload : load_config fs = (Ret stored, fs)).
  { rewrite load_config_eq, Hfile, Hparse.
    cbn [merge_defaults default_items]. rewrite Hrepos. cbn [obind negb].
    rewrite Hsettings. reflexivity. }
  split; [exact Hload |].
  unfold get_custom_repositories, get_setting, add_custom_repository,
    remove_custom_repository, set_setting, bind, lift.
  rewrite Hload, Hsettings.
  destruct stored as [| b | m | s | l | d]; try discriminate;
    try (exfalso; exact (Hshape d eq_refl)); repeat split.
Qed.

(** X12. When the stored ["custom_repositories"] value is not a list,
    neither [add_custom_repository] nor [remove_custom_repository] saves
    anything or returns [True].  If [url in value] is [True] (a substring
    of a stored string, a key of a stored object), add returns [False] and
    remove raises [AttributeError]; if it is [False], add raises
    [AttributeError] and remove returns [False]; if the value supports no
    [in], both raise [TypeError]. *)
Theorem repositories_that_are_not_a_list
    (fs : filesystem) (config : dict) (stored : value) (url : string) :
  load_config fs = (Ret (VDict config), fs) ->
  dict_get "custom_repositories" config = Some stored ->
  (forall l, stored <> VList l) ->
  (py_in url stored = Ret true /\
   add_custom_repository url fs = (Ret false, fs) /\
   remove_custom_repository url fs = (Raise AttributeError, fs)) \/
  (py_in url stored = Ret false /\
   add_custom_repository url fs = (Raise AttributeError, fs) /\
   remove_custom_repository url fs = (Ret false, fs)) \/
  (py_in url stored = Raise TypeError /\
   add_custom_repository url fs = (Raise TypeError, fs) /\
   remove_custom_repository url fs = (Raise TypeError, fs)).
Proof.
  intros Hload Hget Hshape.
  unfold add_custom_repository, remove_custom_repository, bind, lift.
  rewrite Hload. cbn [py_getitem]. rewrite Hget.
  destruct stored as [| b | m | s | l | d];
    try (exfalso; exact (Hshape l eq_refl)).
  - right. right. repeat split.
  - right. right. repeat split.
  - right. right. repeat split.
  - cbn [py_in]. destruct (is_substring url s);
      [left | right; left]; repeat split.
  - cbn [py_in]. destruct (dict_has url d);
      [left | right; left]; repeat split.
Qed.

(** X13. When the stored ["settings"] value is not an object,
    [set_setting] raises [TypeError] without saving and [get_setting]
    raises [AttributeError], whatever the key. *)
Theorem settings_that_are_not_a_mapping
    (fs : filesystem) (config : dict) (stored : value)
    (key : string) (n : Z) (default : option Z) :
  load_config fs = (Ret (VDict config), fs) ->
  dict_get "settings" config = Some stored ->
  (forall d, stored <> VDict d) ->
  set_setting key n fs = (Raise TypeError, fs) /\
  get_setting key default fs = (Raise AttributeError, fs).
Proof.
  intros Hload Hget Hshape.
  rewrite set_setting_eq, (get_setting_of_config fs config key default Hload),
    Hload.
  unfold with_setting. cbn [py_in obind py_get]. unfold dict_has.
  rewrite Hget. cbn [negb obind py_getitem]. rewrite Hget.
  destruct stored as [| b | m | s | l | d];
    try (exfalso; exact (Hshape d eq_refl)); split; reflexivity.
Qed.

(** *** Failures of the file system, seen from the setters *)

Lemma save_config_denied (config : value) (fs : filesystem) :
  dir_present fs = true ->
  writes fs = Denied ->
  save_config config fs = (Ret false, fs).
Proof.
  intros Hdir Hwrites. rewrite save_config_eq, ensure_config_dir_eq, Hdir.
  unfold write_config_file. rewrite Hdir, Hwrites. simpl.
  destruct (config_file fs) as [[| content] |]; reflexivity.
Qed.

(** X14. Where the configuration directory is missing and cannot be
    created, the setters that reach [save_config] raise [OSError] instead
    of returning [False]: [add_custom_repository] and [set_setting] do,
    for every argument; [remove_custom_repository] finds nothing to remove
    and returns [False]; the readers return the defaults. *)
Theorem missing_directory_failure_reaches_setters
    (fs : filesystem) (url key : string) (n : Z) (default : option Z) :
  dir_present fs = false ->
  makedirs_ok fs = false ->
  config_file fs = None ->
  add_custom_repository url fs = (Raise OSError, fs) /\
  set_setting key n fs = (Raise OSError, fs) /\
  remove_custom_repository url fs = (Ret false, fs) /\
  get_custom_repositories fs = (Ret (VList []), fs).
Proof.
  intros Hdir Hmk Hfile.
  assert (Hload : load_config fs = (Ret (VDict default_items), fs))
    by (apply load_config_default_cases; now left).
  split; [| split; [| split]].
  - rewrite (add_custom_repository_eq fs default_items [] url Hload eq_refl).
    now apply save_config_propagates_makedirs_failure.
  - rewrite (set_setting_dict_eq fs default_items _ key n Hload eq_refl).
    now apply save_config_propagates_makedirs_failure.
  - now rewrite (remove_custom_repository_eq fs default_items [] url Hload eq_refl).
  - exact (get_custom_repositories_eq fs default_items _ Hload eq_refl).
Qed.

(** X15. Where the directory exists and the file cannot be opened for
    writing, every setter returns [False] and changes nothing: adding a URL
    that is not stored gives the same [False] as adding one that is, and
    removing a URL that is stored the same [False] as removing one that is
    not. *)
Theorem refused_write_is_reported_as_false
    (fs : filesystem) (config settings : dict) (repos : list value)
    (url key : string) (n : Z) :
  load_config fs = (Ret (VDict config), fs) ->
  dict_get "custom_repositories" config = Some (VList repos) ->
  dict_get "settings" config = Some (VDict settings) ->
  dir_present fs = true ->
  writes fs = Denied ->
  add_custom_repository url fs = (Ret false, fs) /\
  remove_custom_repository url fs = (Ret false, fs) /\
  set_setting key n fs = (Ret false, fs).
Proof.
  intros Hload Hrepos Hsettings Hdir Hwrites.
  split; [| split].
  - rewrite (add_custom_repository_eq fs config repos url Hload Hrepos).
    destruct (existsb (str_eq_value url) repos); [reflexivity |].
    now apply save_config_denied.
  - rewrite (remove_custom_repository_eq fs config repos url Hload Hrepos).
    destruct (existsb (str_eq_value url) repos) eqn:Hin; [| reflexivity].
    apply existsb_str_eq_value in Hin.
    destruct (remove_first_split url repos Hin) as (before & after & _ & _ & ->).
    now apply save_config_denied.
  - rewrite (set_setting_dict_eq fs config settings key n Hload Hsettings).
    now apply save_config_denied.
Qed.

(** *** Saving more than once *)

(** Where the file can be opened and written, [save_config] leaves the
    directory and what [json.dump] wrote, whatever the file held. *)
Lemma save_config_writable (config : value) (fs : filesystem) :
  writes fs = Writable ->
  config_file fs <> Some Unreadable ->
  dir_present fs = true \/ makedirs_ok fs = true ->
  save_config config fs =
  (match json_dump config with
   | Dumped _ => Ret true
   | DumpFailed _ OSError => Ret false
   | DumpFailed _ e => Raise e
   end,
   mkFs true (makedirs_ok fs) (Some (Text (written (json_dump config))))
        Writable).
Proof.
  intros Hw Hfile Hdir.
  rewrite save_config_eq, ensure_config_dir_eq.
  unfold write_config_file, with_config_dir.
  destruct fs as [dir mk file w]. simpl in *. subst w.
  destruct dir; simpl.
  - destruct file as [[| content] |]; [contradiction | |];
      (destruct (json_dump config) as [text | partial e];
       [reflexivity | destruct e; reflexivity]).
  - destruct Hdir as [Hdir | ->]; [discriminate |]. simpl.
    destruct file as [[| content] |]; [contradiction | |];
      (destruct (json_dump config) as [text | partial e];
       [reflexivity | destruct e; reflexivity]).
Qed.

Lemma save_config_true_inv (config : value) (fs fs' : filesystem) :
  save_config config fs = (Ret true, fs') ->
  writes fs = Writable /\
  config_file fs <> Some Unreadable /\
  (dir_present fs = true \/ makedirs_ok fs = true) /\
  exists text,
    json_dump config = Dumped text /\
    fs' = mkFs true (makedirs_ok fs) (Some (Text text)) (writes fs).
Proof.
  rewrite save_config_eq, ensure_config_dir_eq. unfold write_config_file.
  destruct fs as [dir mk file w]. simpl.
  destruct dir; simpl.
  - destruct file as [[| content] |]; destruct w; simpl;
      try discriminate;
      (destruct (json_dump config) as [text | partial e];
       [| destruct e; discriminate]);
      intros H; injection H as <-;
      (repeat split; auto; try discriminate);
      exists text; split; reflexivity.
  - destruct mk; simpl; [| discriminate].
    destruct file as [[| content] |]; destruct w; simpl;
      try discriminate;
      (destruct (json_dump config) as [text | partial e];
       [| destruct e; discriminate]);
      intros H; injection H as <-;
      (repeat split; auto; try discriminate);
      exists text; split; reflexivity.
Qed.

(** X16. [save_config] replaces the file as a whole: after a save that
    returned [True], the file holds the text [json.dump] wrote for that
    configuration and the directory exists, and a second [save_config]
    does exactly what it would have done without the first one, so that
    nothing of the first content is kept. *)
Theorem save_config_last_write_wins
    (first second : value) (fs fs1 : filesystem) :
  save_config first fs = (Ret true, fs1) ->
  (exists text,
      json_dump first = Dumped text /\ config_file fs1 = Some (Text text)) /\
  dir_present fs1 = true /\
  save_config second fs1 = save_config second fs.
Proof.
  intros Hsave.
  destruct (save_config_true_inv first fs fs1 Hsave)
    as (Hw & Hfile & Hdir & text & Hdump & ->).
  split; [exists text; split; [exact Hdump | reflexivity] |].
  split; [reflexivity |].
  rewrite (save_config_writable second fs Hw Hfile Hdir).
  rewrite save_config_writable; simpl; auto.
  discriminate.
Qed.

(** X17. Setting the same key twice keeps the last value only: after a
    [set_setting key n1] that returned [True], [set_setting key n2] saves
    the configuration that [set_setting key n2] alone would have saved on
    the configuration loaded at the start. *)
Theorem set_setting_twice_keeps_last
    (fs fs1 : filesystem) (config settings : dict) (key : string) (n1 n2 : Z) :
  load_config fs = (Ret (VDict config), fs) ->
  dict_get "settings" config = Some (VDict settings) ->
  round_trips
    (VDict (dict_set "settings" (VDict (dict_set key (VInt n1) settings)) config)) ->
  set_setting key n1 fs = (Ret true, fs1) ->
  set_setting key n2 fs1 =
  save_config
    (VDict (dict_set "settings" (VDict (dict_set key (VInt n2) settings)) config))
    fs1.
Proof.
  intros Hload Hget Hrt Hset.
  rewrite (set_setting_dict_eq fs config settings key n1 Hload Hget) in Hset.
  pose proof (load_after_update fs fs fs1 config _ _ Hload Hrt Hset) as Hload1.
  rewrite (set_setting_dict_eq fs1 _ _ key n2 Hload1 (dict_get_set_same _ _ _)).
  now rewrite !dict_set_set.
Qed.

(** X18. When [json.dump] raises an exception other than [OSError] on
    the configuration that [set_setting key n] saves (a [ValueError] for an
    [n] of more than 4300 digits), where the file can be written,
    [set_setting] raises that exception and the file is left with what had
    been written before it; if that text does not parse, the next
    [load_config] returns the defaults, so that what was stored is lost. *)
Theorem unserialisable_setting_truncates_file
    (fs : filesystem) (config settings : dict) (key : string) (n : Z)
    (partial : string) (e : exn) :
  load_config fs = (Ret (VDict config), fs) ->
  dict_get "settings" config = Some (VDict settings) ->
  json_dump
    (VDict (dict_set "settings" (VDict (dict_set key (VInt n) settings)) config))
  = DumpFailed partial e ->
  e <> OSError ->
  dir_present fs = true \/ makedirs_ok fs = true ->
  config_file fs <> Some Unreadable ->
  writes fs = Writable ->
  exists fs1,
    set_setting key n fs = (Raise e, fs1) /\
    config_file fs1 = Some (Text partial) /\
    (json_load partial = Raise JSONDecodeError ->
     load_config fs1 = (Ret default_config, fs1)).
Proof.
  intros Hload Hget Hdump He Hdir Hfile Hw.
  eexists. split; [| split].
  - rewrite (set_setting_dict_eq fs config settings key n Hload Hget).
    exact (save_config_propagates_dump_failure _ fs partial e Hdump He Hdir
             Hfile Hw).
  - reflexivity.
  - intros Hparse. rewrite load_config_eq. simpl. now rewrite Hparse.
Qed.

End ConfigStore.

(* ===================================================================== *)
(** ** The properties on concrete file systems *)
(* ===================================================================== *)

Import Py Fs SampleJson Samples.

(** Goals closed by running the model; for [round_trips], the text that
    was written is computed first. *)
Ltac run :=
  lazymatch goal with
  | |- round_trips _ _ _ =>
      let text := fresh "text" in
      let H := fresh "H" in
      intros text H; vm_compute in H; injection H as <-;
      vm_compute; reflexivity
  | |- _ => vm_compute; reflexivity
  end.

(** Saving [example_config] where nothing exists yet, then loading. *)
Lemma save_config_load_config_round_trip_example :
  save_config dump (VDict example_config) fresh
  = (Ret true, holding (dumps (VDict example_config))) /\
  load_config loads (holding (dumps (VDict example_config)))
  = (Ret (VDict example_config), holding (dumps (VDict example_config))).
Proof.
  assert (Hsave : save_config dump (VDict example_config) fresh
                  = (Ret true, holding (dumps (VDict example_config))))
    by run.
  split; [exact Hsave |].
  apply (save_config_load_config_round_trip dump loads example_config fresh);
    [reflexivity | reflexivity | run | exact Hsave].
Defined.

(** No file, a file that cannot be opened, a file that is not JSON. *)
Lemma load_config_falls_back_to_default_example :
  load_config loads fresh = (Ret (default_config), fresh) /\
  load_config loads unreadable = (Ret (default_config), unreadable) /\
  load_config loads (holding "not json")
  = (Ret (default_config), holding "not json").
Proof.
  split; [| split]; apply load_config_falls_back_to_default.
  - left. reflexivity.
  - right. left. reflexivity.
  - right. right. exists "not json". split; [reflexivity | run].
Defined.

(** A file saved as Latin-1 is not UTF-8: reading it raises
    [UnicodeDecodeError], which is neither of the two classes that
    [load_config] handles, and [load_config] raises instead of returning
    the default configuration. *)
Lemma load_config_raises_on_undecodable_file :
  load_config SampleUtf8.loads latin1 = (Raise UnicodeDecodeError, latin1) /\
  forall config fs',
    load_config SampleUtf8.loads latin1 <> (Ret config, fs').
Proof.
  split; [run |].
  intros config fs'. vm_compute. discriminate.
Qed.

(** A stored [{}], and a stored document that has settings of its own. *)
Lemma load_config_fills_missing_top_level_keys_example :
  load_config loads (holding "{}") = (Ret default_config, holding "{}") /\
  exists d',
    load_config loads themed = (Ret (VDict d'), themed) /\
    dict_get "settings" d' = Some (VDict [("x", VInt 1)]) /\
    dict_get "custom_repositories" d' = Some (VList []).
Proof.
  split.
  - destruct (load_config_fills_missing_top_level_keys
                loads (holding "{}") "{}" [])
      as (d' & Hload & _ & Hempty & _); [reflexivity | run |].
    rewrite Hload. now rewrite (Hempty eq_refl).
  - destruct (load_config_fills_missing_top_level_keys
                loads themed (json "{'theme': 'dark', 'settings': {'x': 1}}")
                [("theme", VStr "dark"); ("settings", VDict [("x", VInt 1)])])
      as (d' & Hload & Hkeys & _ & Hsettings); [reflexivity | run |].
    exists d'. split; [exact Hload | split].
    + apply Hsettings. reflexivity.
    + apply (Hkeys "custom_repositories" (VList [])). left. reflexivity.
Defined.

(** The unknown key ["theme"] through a load and through a load, a save and
    another load. *)
Lemma load_config_keeps_unknown_keys_example :
  exists d' fs1,
    load_config loads themed = (Ret (VDict d'), themed) /\
    dict_get "theme" d' = Some (VStr "dark") /\
    save_config dump (VDict d') themed = (Ret true, fs1) /\
    load_config loads fs1 = (Ret (VDict d'), fs1).
Proof.
  destruct (load_config_keeps_unknown_keys
              dump loads themed (json "{'theme': 'dark', 'settings': {'x': 1}}")
              [("theme", VStr "dark"); ("settings", VDict [("x", VInt 1)])])
    as (d' & Hload & _ & Hkeys & Hcycle); [reflexivity | run |].
  assert (Hd : d' = [("theme", VStr "dark"); ("settings", VDict [("x", VInt 1)]);
                     ("custom_repositories", VList [])]).
  { vm_compute in Hload. congruence. }
  exists d', (holding (dumps (VDict d'))).
  assert (Hsave : save_config dump (VDict d') themed
                  = (Ret true, holding (dumps (VDict d')))).
  { rewrite Hd. run. }
  split; [exact Hload | split; [| split; [exact Hsave |]]].
  - rewrite Hkeys; [reflexivity | discriminate | discriminate].
  - apply Hcycle; [rewrite Hd; run | exact Hsave].
Defined.

(** The texts [5] and [[1, 2]]. *)
Lemma load_config_raises_on_non_object_example :
  load_config loads (holding "5") = (Raise TypeError, holding "5") /\
  load_config loads (holding "[1, 2]") = (Raise TypeError, holding "[1, 2]").
Proof.
  split.
  - apply (load_config_raises_on_non_object loads (holding "5") "5");
      [reflexivity | left; run].
  - apply (load_config_raises_on_non_object loads (holding "[1, 2]") "[1, 2]");
      [reflexivity | right; run].
Defined.

(** [save_config] where the file can be created, where it cannot, and on
    a configuration with an integer that [json.dump] refuses to write. *)
Lemma save_config_returns_boolean_example :
  save_config dump (VDict example_config) fresh
  = (Ret true, holding (dumps (VDict example_config))) /\
  save_config dump (VDict example_config) read_only = (Ret false, read_only) /\
  exists fs',
    save_config dump (VDict oversized_config) fresh = (Raise ValueError, fs').
Proof.
  split; [| split].
  - destruct (save_config_returns_boolean dump (VDict example_config) fresh)
      as (fs_dir & Hdir & [(fs' & Hwrite & Hsave)
                          | [(fs' & Hwrite & Hsave)
                            | (partial & e & fs' & Hdump & _)]]).
    + right. reflexivity.
    + rewrite Hsave. vm_compute in Hdir. injection Hdir as <-.
      vm_compute in Hwrite. injection Hwrite as <-. run.
    + vm_compute in Hdir. injection Hdir as <-.
      vm_compute in Hwrite. discriminate.
    + vm_compute in Hdump. discriminate.
  - destruct (save_config_returns_boolean dump (VDict example_config) read_only)
      as (fs_dir & Hdir & [(fs' & Hwrite & Hsave)
                          | [(fs' & Hwrite & Hsave)
                            | (partial & e & fs' & Hdump & _)]]).
    + left. reflexivity.
    + vm_compute in Hdir. injection Hdir as <-.
      vm_compute in Hwrite. discriminate.
    + rewrite Hsave. vm_compute in Hdir. injection Hdir as <-.
      vm_compute in Hwrite. injection Hwrite as <-. reflexivity.
    + vm_compute in Hdump. discriminate.
  - eexists. run.
Defined.

(** A write that fails half-way is reported as [False] and leaves a
    truncated file behind, which the next [load_config] reads as the
    default configuration. *)
Example save_config_on_full_device :
  exists fs',
    save_config dump (VDict example_config) full_device = (Ret false, fs') /\
    config_file fs' = Some (Text EmptyString) /\
    load_config loads fs' = (Ret default_config, fs').
Proof.
  eexists. split; [run | split; run].
Qed.

(** The directory is missing and cannot be created: [os.makedirs] raises
    and [save_config] lets the exception through, it does not return
    [False].  And where everything can be written, a setting of 4301
    digits makes [json.dump] raise [ValueError], which [save_config] lets
    through as well. *)
Lemma save_config_raises_when_makedirs_fails :
  (save_config dump (VDict example_config) no_directory
   = (Raise OSError, no_directory) /\
   forall ok fs',
     save_config dump (VDict example_config) no_directory <> (Ret ok, fs')) /\
  (fst (save_config dump (VDict oversized_config) fresh) = Raise ValueError /\
   forall ok fs',
     save_config dump (VDict oversized_config) fresh <> (Ret ok, fs')).
Proof.
  split; (split; [run |]); intros ok fs'; vm_compute; discriminate.
Qed.

(** Removing a URL that is not stored, and one that is stored twice. *)
Lemma remove_custom_repository_cases_example :
  remove_custom_repository dump loads "c" three_repositories
  = (Ret false, three_repositories) /\
  exists before after,
    [VStr "a"; VStr "b"; VStr "a"] = before ++ VStr "a" :: after /\
    ~ In (VStr "a") before /\
    remove_custom_repository dump loads "a" three_repositories
    = save_config dump
        (VDict [("custom_repositories", VList (before ++ after));
                ("settings", VDict [])])
        three_repositories.
Proof.
  assert (Hload : load_config loads three_repositories
                  = (Ret (VDict [("custom_repositories",
                                  VList [VStr "a"; VStr "b"; VStr "a"]);
                                 ("settings", VDict [])]),
                     three_repositories)) by run.
  split.
  - apply (remove_custom_repository_cases dump loads _ _ _ "c" Hload eq_refl).
    intros [H | [H | [H | []]]]; discriminate.
  - apply (remove_custom_repository_cases dump loads _ _ _ "a" Hload eq_refl).
    left. reflexivity.
Defined.

(** Adding a URL twice, starting where nothing exists yet. *)
Lemma add_custom_repository_cases_example :
  exists fs1 repos2,
    add_custom_repository dump loads example_url fresh = (Ret true, fs1) /\
    add_custom_repository dump loads example_url fs1 = (Ret false, fs1) /\
    get_custom_repositories loads fs1 = (Ret (VList repos2), fs1) /\
    occurrences example_url repos2 = 1.
Proof.
  assert (Hload : load_config loads fresh = (Ret (VDict default_items), fresh))
    by run.
  destruct (add_custom_repository_cases dump loads fresh default_items []
              example_url Hload eq_refl) as (_ & _ & Htwice).
  set (fs1 := snd (add_custom_repository dump loads example_url fresh)).
  assert (Hfirst : add_custom_repository dump loads example_url fresh
                   = (Ret true, fs1)) by run.
  destruct (Htwice true fs1 Hfirst) as (repos2 & Hsecond & Hlist & Honce).
  - unfold occurrences. simpl. lia.
  - right. split; [reflexivity | run].
  - exists fs1, repos2. auto.
Defined.

(** A URL that is stored twice stays stored twice: both calls return
    [False] and save nothing.  And where the file cannot be written, both
    calls return [False] (the result of [save_config]) and the URL is not
    stored at all. *)
Lemma add_custom_repository_twice_not_exactly_once :
  (add_custom_repository dump loads "u" duplicated = (Ret false, duplicated) /\
   get_custom_repositories loads duplicated
   = (Ret (VList [VStr "u"; VStr "u"]), duplicated) /\
   occurrences "u" [VStr "u"; VStr "u"] = 2) /\
  (add_custom_repository dump loads "u" read_only = (Ret false, read_only) /\
   get_custom_repositories loads read_only = (Ret (VList []), read_only) /\
   occurrences "u" [] = 0).
Proof.
  split; (split; [run | split; [run | reflexivity]]).
Qed.

(** [set_setting "x" 1] where nothing exists yet, then [get_setting] on
    ["x"] and on a key that was never set. *)
Lemma setting_set_then_get_and_default_example :
  exists fs1,
    set_setting dump loads "x" 1 fresh = (Ret true, fs1) /\
    get_setting loads "x" None fs1 = (Ret (VInt 1), fs1) /\
    get_setting loads "y" (Some 99%Z) fs1 = (Ret (VInt 99), fs1) /\
    get_setting loads "y" None fresh = (Ret VNone, fresh).
Proof.
  destruct (setting_set_then_get_and_default dump loads) as [Hset Hdefault].
  set (fs1 := snd (set_setting dump loads "x" 1 fresh)).
  assert (Hfirst : set_setting dump loads "x" 1 fresh = (Ret true, fs1)) by run.
  exists fs1. split; [exact Hfirst | split; [| split]].
  - apply (Hset fresh fs1 default_config
             (VDict [("custom_repositories", VList []);
                     ("settings", VDict [("cache_expiry", VInt 300);
                                         ("max_cache_size", VInt 50);
                                         ("x", VInt 1)])])
             "x" 1%Z None); [run | run | run | exact Hfirst].
  - apply (Hdefault fs1
             [("custom_repositories", VList []);
              ("settings", VDict [("cache_expiry", VInt 300);
                                  ("max_cache_size", VInt 50);
                                  ("x", VInt 1)])]
             [("cache_expiry", VInt 300); ("max_cache_size", VInt 50);
              ("x", VInt 1)]
             "y" (Some 99%Z)); run.
  - apply (Hdefault fresh default_items
             [("cache_expiry", VInt 300); ("max_cache_size", VInt 50)]
             "y" None); run.
Defined.

(* ===================================================================== *)
(** ** The further properties on concrete file systems *)
(* ===================================================================== *)

(** Creating the directory where nothing exists, twice. *)
Lemma ensure_config_dir_idempotent_example :
  ensure_config_dir fresh = (Ret tt, with_config_dir fresh) /\
  ensure_config_dir (with_config_dir fresh) = (Ret tt, with_config_dir fresh).
Proof.
  assert (H : ensure_config_dir fresh = (Ret tt, with_config_dir fresh))
    by reflexivity.
  split; [exact H |].
  destruct (ensure_config_dir_idempotent fresh _ H) as (_ & _ & _ & Hagain).
  exact Hagain.
Defined.

(** The stored list that holds both key names is what [load_config]
    returns. *)
Lemma load_config_result_has_both_keys_example :
  load_config loads both_names
  = (Ret (VList [VStr "settings"; VStr "custom_repositories"]), both_names) /\
  py_in "custom_repositories" (VList [VStr "settings"; VStr "custom_repositories"])
  = Ret true /\
  py_in "settings" (VList [VStr "settings"; VStr "custom_repositories"])
  = Ret true.
Proof.
  assert (H : load_config loads both_names
              = (Ret (VList [VStr "settings"; VStr "custom_repositories"]),
                 both_names)) by run.
  split; [exact H |].
  exact (load_config_result_has_both_keys loads both_names both_names _ H).
Defined.

(** The [TypeError] on a stored [null]. *)
Lemma load_config_never_raises_handled_classes_example :
  load_config loads null_document = (Raise TypeError, null_document) /\
  TypeError <> OSError /\ TypeError <> JSONDecodeError.
Proof.
  assert (H : load_config loads null_document = (Raise TypeError, null_document))
    by run.
  split; [exact H |].
  destruct (load_config_never_raises_handled_classes
              loads null_document null_document TypeError H)
    as (Hos & Hjson & _).
  split; assumption.
Defined.

(** A file saved as Latin-1, read as UTF-8. *)
Lemma unhandled_json_load_exception_reaches_caller_example :
  load_config SampleUtf8.loads latin1 = (Raise UnicodeDecodeError, latin1) /\
  get_custom_repositories SampleUtf8.loads latin1
  = (Raise UnicodeDecodeError, latin1) /\
  get_setting SampleUtf8.loads "x" None latin1
  = (Raise UnicodeDecodeError, latin1) /\
  add_custom_repository dump SampleUtf8.loads "u" latin1
  = (Raise UnicodeDecodeError, latin1) /\
  remove_custom_repository dump SampleUtf8.loads "u" latin1
  = (Raise UnicodeDecodeError, latin1) /\
  set_setting dump SampleUtf8.loads "x" 1 latin1
  = (Raise UnicodeDecodeError, latin1).
Proof.
  apply (unhandled_json_load_exception_reaches_caller
           dump SampleUtf8.loads latin1
           (json "'caf" ++ String (ascii_of_nat 233) (json "'"))
           UnicodeDecodeError "u" "x" 1%Z None);
    [reflexivity | run | discriminate | discriminate].
Defined.

(** A stored [null]. *)
Lemma scalar_document_breaks_every_operation_example :
  load_config loads null_document = (Raise TypeError, null_document) /\
  get_custom_repositories loads null_document = (Raise TypeError, null_document) /\
  get_setting loads "x" None null_document = (Raise TypeError, null_document) /\
  add_custom_repository dump loads "u" null_document
  = (Raise TypeError, null_document) /\
  remove_custom_repository dump loads "u" null_document
  = (Raise TypeError, null_document) /\
  set_setting dump loads "x" 1 null_document = (Raise TypeError, null_document).
Proof.
  apply (scalar_document_breaks_every_operation
           dump loads null_document "null" VNone "u" "x" 1%Z None);
    [reflexivity | run | left; reflexivity].
Defined.

(** Adding [example_url] where nothing exists, then removing it: the
    default configuration is stored. *)
Lemma add_then_remove_restores_configuration_example :
  exists fs1 fs2,
    add_custom_repository dump loads example_url fresh = (Ret true, fs1) /\
    remove_custom_repository dump loads example_url fs1 = (Ret true, fs2) /\
    load_config loads fs2 = (Ret default_config, fs2).
Proof.
  set (fs1 := snd (add_custom_repository dump loads example_url fresh)).
  set (fs2 := snd (remove_custom_repository dump loads example_url fs1)).
  assert (Hadd : add_custom_repository dump loads example_url fresh
                 = (Ret true, fs1)) by run.
  assert (Hremove : remove_custom_repository dump loads example_url fs1
                    = (Ret true, fs2)) by run.
  destruct (add_then_remove_restores_configuration
              dump loads fresh fs1 default_items [] example_url)
    as [_ Hback]; [run | reflexivity | run | exact Hadd |].
  exists fs1, fs2. split; [exact Hadd | split; [exact Hremove |]].
  apply Hback; [run | exact Hremove].
Defined.

(** [set_setting "x" 1] where nothing exists: the pre-seeded settings and
    the repository list are as before. *)
Lemma set_setting_changes_one_setting_example :
  exists fs1,
    set_setting dump loads "x" 1 fresh = (Ret true, fs1) /\
    get_setting loads "cache_expiry" None fs1 = (Ret (VInt 300), fs1) /\
    get_custom_repositories loads fs1 = (Ret (VList []), fs1).
Proof.
  set (fs1 := snd (set_setting dump loads "x" 1 fresh)).
  assert (Hset : set_setting dump loads "x" 1 fresh = (Ret true, fs1)) by run.
  destruct (set_setting_changes_one_setting
              dump loads fresh fs1 default_items
              [("cache_expiry", VInt 300); ("max_cache_size", VInt 50)] "x" 1%Z)
    as (Hother & Hrepos & _); [run | reflexivity | run | exact Hset |].
  exists fs1. split; [exact Hset | split].
  - rewrite (Hother "cache_expiry" None); [reflexivity | discriminate].
  - rewrite Hrepos. reflexivity.
Defined.

(** Adding a URL to the stored document that has a theme and a setting. *)
Lemma add_custom_repository_changes_the_list_only_example :
  exists fs1,
    add_custom_repository dump loads "u" themed = (Ret true, fs1) /\
    get_custom_repositories loads fs1 = (Ret (VList [VStr "u"]), fs1) /\
    get_setting loads "x" None fs1 = (Ret (VInt 1), fs1).
Proof.
  set (fs1 := snd (add_custom_repository dump loads "u" themed)).
  assert (Hadd : add_custom_repository dump loads "u" themed = (Ret true, fs1))
    by run.
  destruct (add_custom_repository_changes_the_list_only
              dump loads themed fs1
              [("theme", VStr "dark"); ("settings", VDict [("x", VInt 1)]);
               ("custom_repositories", VList [])] [] "u")
    as (Hlist & Hsetting & _); [run | reflexivity | run | exact Hadd |].
  exists fs1. split; [exact Hadd | split; [exact Hlist |]].
  rewrite (Hsetting "x" None). reflexivity.
Defined.

(** A file that is not JSON: the first add replaces it. *)
Lemma unusable_file_is_replaced_by_defaults_example :
  add_custom_repository dump loads "u" (holding "not json")
  = (Ret true,
     holding (dumps (VDict [("custom_repositories", VList [VStr "u"]);
                            ("settings", VDict [("cache_expiry", VInt 300);
                                                ("max_cache_size", VInt 50)])]))) /\
  remove_custom_repository dump loads "u" (holding "not json")
  = (Ret false, holding "not json").
Proof.
  destruct (unusable_file_is_replaced_by_defaults
              dump loads (holding "not json") "u" "x" 1%Z)
    as (Hadd & _ & Hremove).
  - right. right. exists "not json". split; [reflexivity | run].
  - split; [rewrite Hadd; run | exact Hremove].
Defined.

(** Removing the URL that is stored once among three. *)
Lemma remove_custom_repository_takes_one_occurrence_example :
  exists fs1,
    remove_custom_repository dump loads "b" three_repositories = (Ret true, fs1) /\
    get_custom_repositories loads fs1 = (Ret (VList [VStr "a"; VStr "a"]), fs1) /\
    remove_custom_repository dump loads "b" fs1 = (Ret false, fs1).
Proof.
  set (fs1 := snd (remove_custom_repository dump loads "b" three_repositories)).
  assert (Hremove : remove_custom_repository dump loads "b" three_repositories
                    = (Ret true, fs1)) by run.
  destruct (remove_custom_repository_takes_one_occurrence
              dump loads three_repositories fs1
              [("custom_repositories", VList [VStr "a"; VStr "b"; VStr "a"]);
               ("settings", VDict [])]
              [VStr "a"; VStr "b"; VStr "a"] [VStr "a"; VStr "a"] "b")
    as (Hlist & _ & _ & Honce);
    [run | reflexivity | reflexivity | run | exact Hremove |].
  destruct (Honce eq_refl) as [_ Hsecond].
  exists fs1. split; [exact Hremove | split; [exact Hlist | exact Hsecond]].
Defined.

(** The stored list that holds both key names, through every operation. *)
Lemma non_object_with_both_names_is_returned_example :
  load_config loads both_names
  = (Ret (VList [VStr "settings"; VStr "custom_repositories"]), both_names) /\
  get_custom_repositories loads both_names = (Raise AttributeError, both_names) /\
  get_setting loads "x" None both_names = (Raise AttributeError, both_names) /\
  add_custom_repository dump loads "u" both_names = (Raise TypeError, both_names) /\
  remove_custom_repository dump loads "u" both_names
  = (Raise TypeError, both_names) /\
  set_setting dump loads "x" 1 both_names = (Raise TypeError, both_names).
Proof.
  apply (non_object_with_both_names_is_returned
           dump loads both_names (json "['settings', 'custom_repositories']")
           (VList [VStr "settings"; VStr "custom_repositories"])
           "u" "x" 1%Z None);
    [reflexivity | run | intros d; discriminate | reflexivity | reflexivity].
Defined.

(** Repositories stored as the string [abc]: [b] counts as stored, [x]
    cannot be appended. *)
Lemma repositories_that_are_not_a_list_example :
  add_custom_repository dump loads "b" repositories_string
  = (Ret false, repositories_string) /\
  add_custom_repository dump loads "x" repositories_string
  = (Raise AttributeError, repositories_string).
Proof.
  assert (Hload : load_config loads repositories_string
                  = (Ret (VDict [("custom_repositories", VStr "abc");
                                 ("settings", VDict [])]),
                     repositories_string)) by run.
  assert (Hshape : forall l, VStr "abc" <> VList l) by (intros l; discriminate).
  split.
  - destruct (repositories_that_are_not_a_list
                dump loads repositories_string _ _ "b" Hload eq_refl Hshape)
      as [(_ & Hadd & _) | [(Hin & _) | (Hin & _)]];
      [exact Hadd | vm_compute in Hin; discriminate
       | vm_compute in Hin; discriminate].
  - destruct (repositories_that_are_not_a_list
                dump loads repositories_string _ _ "x" Hload eq_refl Hshape)
      as [(Hin & _) | [(_ & Hadd & _) | (Hin & _)]];
      [vm_compute in Hin; discriminate | exact Hadd
       | vm_compute in Hin; discriminate].
Defined.

(** Settings stored as [null]. *)
Lemma settings_that_are_not_a_mapping_example :
  set_setting dump loads "x" 1 settings_null = (Raise TypeError, settings_null) /\
  get_setting loads "x" None settings_null = (Raise AttributeError, settings_null).
Proof.
  apply (settings_that_are_not_a_mapping
           dump loads settings_null
           [("custom_repositories", VList []); ("settings", VNone)] VNone
           "x" 1%Z None);
    [run | reflexivity | intros d; discriminate].
Defined.

(** No directory, and none can be created. *)
Lemma missing_directory_failure_reaches_setters_example :
  add_custom_repository dump loads "u" no_directory = (Raise OSError, no_directory) /\
  set_setting dump loads "x" 1 no_directory = (Raise OSError, no_directory) /\
  remove_custom_repository dump loads "u" no_directory = (Ret false, no_directory) /\
  get_custom_repositories loads no_directory = (Ret (VList []), no_directory).
Proof.
  apply (missing_directory_failure_reaches_setters
           dump loads no_directory "u" "x" 1%Z None); reflexivity.
Defined.

(** The file that cannot be opened for writing: adding a new URL, removing
    the stored one and setting a value all return [False]. *)
Lemma refused_write_is_reported_as_false_example :
  add_custom_repository dump loads "b" write_protected
  = (Ret false, write_protected) /\
  remove_custom_repository dump loads "a" write_protected
  = (Ret false, write_protected) /\
  set_setting dump loads "y" 2 write_protected = (Ret false, write_protected).
Proof.
  assert (Hload : load_config loads write_protected
                  = (Ret (VDict [("custom_repositories", VList [VStr "a"]);
                                 ("settings", VDict [("x", VInt 1)])]),
                     write_protected)) by run.
  destruct (refused_write_is_reported_as_false
              dump loads write_protected _ _ _ "b" "y" 2%Z
              Hload eq_refl eq_refl eq_refl eq_refl) as (Hadd & _ & Hset).
  destruct (refused_write_is_reported_as_false
              dump loads write_protected _ _ _ "a" "y" 2%Z
              Hload eq_refl eq_refl eq_refl eq_refl) as (_ & Hremove & _).
  split; [exact Hadd | split; [exact Hremove | exact Hset]].
Defined.

(** Saving [example_config], then the default configuration. *)
Lemma save_config_last_write_wins_example :
  exists fs1,
    save_config dump (VDict example_config) fresh = (Ret true, fs1) /\
    config_file fs1 = Some (Text (dumps (VDict example_config))) /\
    save_config dump default_config fs1 = save_config dump default_config fresh /\
    save_config dump default_config fs1
    = (Ret true, holding (dumps default_config)).
Proof.
  set (fs1 := snd (save_config dump (VDict example_config) fresh)).
  assert (Hfirst : save_config dump (VDict example_config) fresh
                   = (Ret true, fs1)) by run.
  destruct (save_config_last_write_wins
              dump (VDict example_config) default_config fresh fs1 Hfirst)
    as (_ & _ & Hsame).
  exists fs1.
  split; [exact Hfirst | split; [run | split; [exact Hsame |]]].
  rewrite Hsame. run.
Defined.

(** [set_setting "x" 1], then [set_setting "x" 2]. *)
Lemma set_setting_twice_keeps_last_example :
  exists fs1,
    set_setting dump loads "x" 1 fresh = (Ret true, fs1) /\
    set_setting dump loads "x" 2 fs1
    = save_config dump
        (VDict [("custom_repositories", VList []);
                ("settings", VDict [("cache_expiry", VInt 300);
                                    ("max_cache_size", VInt 50);
                                    ("x", VInt 2)])])
        fs1.
Proof.
  set (fs1 := snd (set_setting dump loads "x" 1 fresh)).
  assert (Hset : set_setting dump loads "x" 1 fresh = (Ret true, fs1)) by run.
  exists fs1. split; [exact Hset |].
  apply (set_setting_twice_keeps_last
           dump loads fresh fs1 default_items
           [("cache_expiry", VInt 300); ("max_cache_size", VInt 50)] "x" 1%Z 2%Z);
    [run | reflexivity | run | exact Hset].
Defined.

(** The numerals used for the digit limit. *)
Lemma digit_limit_value :
  SampleJson.digit_limit = (10 ^ 4300)%Z /\ oversized = (10 ^ 4300)%Z.
Proof. split; vm_compute; reflexivity. Qed.

(** Three stored repositories; [set_setting] with a value of 4301 digits:
    the call raises, and afterwards the repositories are gone. *)
Lemma unserialisable_setting_truncates_file_example :
  exists fs1,
    get_custom_repositories loads three_repositories
    = (Ret (VList [VStr "a"; VStr "b"; VStr "a"]), three_repositories) /\
    set_setting dump loads "x" oversized three_repositories
    = (Raise ValueError, fs1) /\
    load_config loads fs1 = (Ret default_config, fs1) /\
    get_custom_repositories loads fs1 = (Ret (VList []), fs1).
Proof.
  edestruct (unserialisable_setting_truncates_file
               dump loads three_repositories
               [("custom_repositories", VList [VStr "a"; VStr "b"; VStr "a"]);
                ("settings", VDict [])] [] "x" oversized)
    as (fs1 & Hset & Hfile & Hload);
    [run | reflexivity | run | discriminate | left; reflexivity
     | discriminate | reflexivity |].
  exists fs1.
  assert (Hdefault : load_config loads fs1 = (Ret default_config, fs1))
    by (apply Hload; run).
  split; [run | split; [exact Hset | split; [exact Hdefault |]]].
  unfold get_custom_repositories, bind, lift. rewrite Hdefault. reflexivity.
Defined.
